(** * LuncheonNetwork: ledger, miner and validator

    A shallow embedding of the consensus core of the LuncheonNetwork
    repository (Go packages [blockchain] and [wallet]) together with the
    properties its specification states about it.

    Layout: machine integers and the outcome of a Go call; the data model;
    the operations of package [blockchain] (reward schedule, chain access,
    retargeting, the miner); the operations of package [wallet] (account
    scans, transaction and block validation); sample ledgers; and then
    the theorems, package by package.  A third part holds further
    properties of the same code: appending and removing blocks, the
    reward schedule as a whole, the fresh ledger, what validation leaves
    alone, and validation of the whole chain. *)

From Stdlib Require Import ZArith String Ascii List Bool Lia.
From coqutil Require Import Byte.
Import ListNotations.

Local Open Scope string_scope.
Local Open Scope list_scope.
Local Open Scope Z_scope.

(* ===================================================================== *)
(** * Part I: definitions                                                 *)
(* ===================================================================== *)

(** ** Machine integers

    Go's fixed-width unsigned integers are represented by [Z] with the
    wrap-around written out.  [uint] is the 64-bit [uint] of the usual
    targets. *)

Definition u32 (x : Z) : Z := x mod 2 ^ 32.
Definition u64 (x : Z) : Z := x mod 2 ^ 64.
Definition uint (x : Z) : Z := x mod 2 ^ 64.
Definition u256 (x : Z) : Z := x mod 2 ^ 256.

(** [int(x)] for [x : uint]: reinterpretation as a signed 64-bit integer. *)
Definition int_of_uint (x : Z) : Z := if x <? 2 ^ 63 then x else x - 2 ^ 64.

(** ** Outcome of a call

    A Go call either returns a value or panics (an explicit [panic], an
    index out of range, an integer division by zero). *)

Inductive result (A : Type) : Type :=
| Ok (a : A)
| Panic (msg : string).

Arguments Ok {A} a.
Arguments Panic {A} msg.

Definition bind {A B : Type} (c : result A) (k : A -> result B) : result B :=
  match c with
  | Ok a => k a
  | Panic msg => Panic msg
  end.

Notation "x <- c ;; k" := (bind c (fun x => k))
  (at level 61, c at next level, right associativity).

Definition divide_by_zero : string := "runtime error: integer divide by zero".
Definition index_out_of_range : string := "runtime error: index out of range".

(** ** Data model *)

(** Modelled from the spec: the transaction record of package
    [transactions] read by package [wallet] (fields [TxFrom], [TxTo],
    [Value], [Fee], [Nonce], [Signature]); its declaration is not among the
    sources. *)
Record LuTx : Type := mkLuTx {
  TxFrom : string;
  TxTo : string;
  Value : Z;        (* uint64 *)
  Fee : Z;          (* uint64 *)
  TxNonce : Z;      (* uint32 *)
  Signature : string
}.

(** Modelled from the spec: the block record of package [blockchain]; its
    declaration is not among the sources, the fields are those the sources
    read and write. *)
Record Block : Type := mkBlock {
  BlockSoftwareVersion : string;
  PrevHash : string;
  MerkleRoot : string;
  Timestamp : Z;     (* uint64 *)
  PackedTarget : Z;  (* uint32 *)
  Nonce : Z;         (* uint32 *)
  Miner : string;
  Txs : list LuTx;
  BlockHash : string
}.

(** [Block{}]: the zero value. *)
Definition empty_Block : Block :=
  mkBlock "" "" "" 0 0 0 "" [] "".

(** The chain.  The private field [height] is a cache that only
    [GetHeight] writes, immediately before returning it; it is kept in the
    record and the value [GetHeight] returns is what the callers use. *)
Record Blockchain : Type := mkBlockchain {
  Blocks : list Block;
  height : Z
}.

(** ** Bytes *)

(** Value of a byte string read as a big-endian unsigned integer. *)
Definition be_Z (l : list byte) : Z :=
  fold_left (fun acc x => acc * 256 + byte.unsigned x) l 0.

(** The [n]-byte big-endian form of [v] (its low [8 * n] bits). *)
Fixpoint Z_to_be (n : nat) (v : Z) : list byte :=
  match n with
  | O => []
  | S n' => Z_to_be n' (v / 256) ++ [byte.of_Z v]
  end.

(** Go's [bytes.Compare]: lexicographic order, a proper prefix is smaller;
    the result is -1, 0 or 1. *)
Fixpoint bytes_Compare (a b : list byte) : Z :=
  match a, b with
  | [], [] => 0
  | [], _ :: _ => -1
  | _ :: _, [] => 1
  | x :: a', y :: b' =>
      if byte.unsigned x <? byte.unsigned y then -1
      else if byte.unsigned y <? byte.unsigned x then 1
      else bytes_Compare a' b'
  end.

(** ** Target codec *)

(** Modelled from the spec: [TargetUnpacker.Unpack] of package [utilities],
    which is not among the sources: exponent byte and 24-bit mantissa, the
    mantissa shifted right for exponents up to 3 and left otherwise, held
    in 256 bits. *)
Definition Unpack (compact : Z) : Z :=
  let exp := Z.shiftr compact 24 in
  let mantissa := Z.land compact 0x00FFFFFF in
  if exp <=? 3 then Z.shiftr mantissa (8 * (3 - exp))
  else u256 (Z.shiftl mantissa (8 * (exp - 3))).

(** Modelled from the spec: [TargetUnpacker.UnpackAsBytes], not among the
    sources: the expanded target as the 32 bytes, most significant first,
    that the miner compares a hash against. *)
Definition UnpackAsBytes (compact : Z) : list byte :=
  Z_to_be 32 (Unpack compact).

(** Least number of bytes that hold [t]. *)
Definition byte_length (t : Z) : Z :=
  if t <=? 0 then 0 else Z.log2 t / 8 + 1.

(** Modelled from the spec: [TargetPacker.PackTargetUint256] of package
    [utilities], not among the sources: the minimal byte length as
    exponent, the top three significant bytes as mantissa, one more byte of
    exponent when the mantissa's top bit would be set. *)
Definition PackTargetUint256 (target : Z) : Z :=
  let exp := byte_length target in
  let mantissa :=
    if exp <=? 3 then Z.shiftl target (8 * (3 - exp))
    else Z.shiftr target (8 * (exp - 3)) in
  if Z.testbit mantissa 23
  then Z.lor (Z.shiftl (exp + 1) 24) (Z.shiftr mantissa 8)
  else Z.lor (Z.shiftl exp 24) mantissa.

(** The genesis target, the easiest one allowed. *)
Definition genesisPackedTarget : Z := 0x1d0fffff.

(** ** External collaborators

    What the sources call and do not define: the hash, the signature
    check, hex and integer encodings, the wall clock, the configured
    software version, and the [Block] and [LuTx] methods whose bodies are
    not among the sources.  [ShakeSum256 n data] is the [n]-byte output
    that [sha3.ShakeSum256(out, data)] writes into an [n]-byte buffer.
    [CurrentUnix k] is the [k]-th reading of the clock within a call.
    [ParseBlockToBytes] yields [None] for a nil slice. *)
Class Externals : Type := {
  SoftwareVersion : string;
  ShakeSum256 : nat -> list byte -> list byte;
  ShakeSum256_length : forall n data, length (ShakeSum256 n data) = n;
  hex_EncodeToString : list byte -> string;
  hex_DecodeString : string -> list byte;
  Uint32toB : Z -> list byte;
  Uint64toB : Z -> list byte;
  CurrentUnix : nat -> Z;
  ValidateSig : list byte -> list byte -> list byte -> bool;
  AsBytes : LuTx -> list byte;
  ParseBlockToBytes : Block -> option (list byte);
  GetMerkleRoot : Block -> string
}.

(** Field updates of a block (Go assigns the field in place). *)
Definition with_Timestamp (b : Block) (t : Z) : Block :=
  mkBlock (BlockSoftwareVersion b) (PrevHash b) (MerkleRoot b) t
          (PackedTarget b) (Nonce b) (Miner b) (Txs b) (BlockHash b).

Definition with_Nonce (b : Block) (n : Z) : Block :=
  mkBlock (BlockSoftwareVersion b) (PrevHash b) (MerkleRoot b) (Timestamp b)
          (PackedTarget b) n (Miner b) (Txs b) (BlockHash b).

Definition with_BlockHash (b : Block) (h : string) : Block :=
  mkBlock (BlockSoftwareVersion b) (PrevHash b) (MerkleRoot b) (Timestamp b)
          (PackedTarget b) (Nonce b) (Miner b) (Txs b) h.

Definition with_Txs (b : Block) (txs : list LuTx) : Block :=
  mkBlock (BlockSoftwareVersion b) (PrevHash b) (MerkleRoot b) (Timestamp b)
          (PackedTarget b) (Nonce b) (Miner b) txs (BlockHash b).

Definition with_Signature (tx : LuTx) (s : string) : LuTx :=
  mkLuTx (TxFrom tx) (TxTo tx) (Value tx) (Fee tx) (TxNonce tx) s.

(** Modelled from the spec: [Block.RemoveTx], not among the sources: the
    transaction at [index] is removed in place, the later ones move down
    by one. *)
Definition RemoveTx (txs : list LuTx) (index : nat) : list LuTx :=
  firstn index txs ++ skipn (S index) txs.

Section BlockSetters.
Context {E : Externals}.

(** Modelled from the spec: [Block.SetTimestamp] and [Block.SetBlockHash],
    not among the sources; the hash is stored in hex as [VerifyBlock]
    reads it. *)
Definition SetTimestamp (b : Block) (t : Z) : Block := with_Timestamp b t.
Definition SetBlockHash (b : Block) (h : list byte) : Block :=
  with_BlockHash b (hex_EncodeToString h).

End BlockSetters.

(** ** Package blockchain: the chain *)

(** [s[i]] for an index [i] of type [uint]: outside the slice it panics. *)
Definition index {A : Type} (s : list A) (i : Z) : result A :=
  if i <? Z.of_nat (length s) then
    match nth_error s (Z.to_nat i) with
    | Some x => Ok x
    | None => Panic index_out_of_range
    end
  else Panic index_out_of_range.

Module Blockchain.

(** [func (b *Blockchain) GetBlockReward(height uint32) uint64].
    [halvings] is a [uint32]; the untyped constants [200] and [2] take the
    type of the result, [uint64], so [2 << (halvings - 1)] is a 64-bit
    shift that drops the bits shifted out, and the division is a run-time
    division that panics on a zero divisor. *)
Definition GetBlockReward (h : Z) : result Z :=
  let halvings := h / 525600 in
  if halvings =? 0 then Ok (200 * 1000000)
  else
    let divisor := u64 (Z.shiftl 2 (u32 (halvings - 1))) in
    if divisor =? 0 then Panic divide_by_zero
    else Ok (u64 ((200 / divisor) * 1000000)).

(** [func (b *Blockchain) GetHeight() uint]: [uint(len(b.Blocks) - 1)]. *)
Definition GetHeight (b : Blockchain) : Z :=
  uint (Z.of_nat (length (Blocks b)) - 1).

(** [func (b *Blockchain) GetBlock(blockNum uint) (Block, bool)]. *)
Definition GetBlock (b : Blockchain) (blockNum : Z) : result (Block * bool) :=
  if GetHeight b <? blockNum then Ok (empty_Block, false)
  else
    blk <- index (Blocks b) blockNum ;;
    Ok (blk, true).

(** [func (b *Blockchain) CalculatePackedTarget(blockNumber uint) uint32].
    [time] and [newMultiplier] are [uint64]; the [UInt256] of the external
    big-integer package is a 256-bit unsigned integer, its [Multiply] keeps
    the low 256 bits and [Compare] returns 1 for greater. *)
Definition CalculatePackedTarget (b : Blockchain) (blockNumber : Z) : result Z :=
  if Z.of_nat (length (Blocks b)) <? blockNumber then Ok 0
  else if blockNumber mod 10080 =? 0 then
    newest <- index (Blocks b) (uint (blockNumber - 1)) ;;
    oldest <- index (Blocks b) (uint (blockNumber - 10080)) ;;
    let time := u64 (Timestamp newest - Timestamp oldest) in
    if time =? 0 then Panic divide_by_zero
    else
      let newMultiplier := (10080 * 60) / time in
      let bigNewMultiplier := u256 newMultiplier in
      prev <- index (Blocks b) (uint (blockNumber - 1)) ;;
      let target := Unpack (PackedTarget prev) in
      let newTarget := u256 (target * bigNewMultiplier) in
      let maxTarget := Unpack 0x1d0fffff in
      if maxTarget <? newTarget then Ok 0x1d0fffff
      else Ok (PackTargetUint256 newTarget)
  else
    prev <- index (Blocks b) (uint (blockNumber - 1)) ;;
    Ok (PackedTarget prev).

(** [func (b *Blockchain) AddBlock(block *Block)]:
    [b.Blocks = append(b.Blocks, *block)]. *)
Definition AddBlock (b : Blockchain) (block : Block) : Blockchain :=
  mkBlockchain (Blocks b ++ [block]) (height b).

(** The slice expressions [s[:hi]] and [s[lo:]] for bounds of type [uint].
    A bound past the slice panics (the bound of [s[:hi]] is the capacity,
    taken here to be the length: [RemoveBlock] never asks for more than
    the length unless it asks for [2^64 - 1]). *)
Definition slice_out_of_range : string := "runtime error: slice bounds out of range".

Definition slice_to {A : Type} (s : list A) (hi : Z) : result (list A) :=
  if hi <=? Z.of_nat (length s) then Ok (firstn (Z.to_nat hi) s)
  else Panic slice_out_of_range.

Definition slice_from {A : Type} (s : list A) (lo : Z) : result (list A) :=
  if lo <=? Z.of_nat (length s) then Ok (skipn (Z.to_nat lo) s)
  else Panic slice_out_of_range.

(** [func (b *Blockchain) RemoveBlock()]:
    [b.Blocks = append(b.Blocks[:b.GetHeight()], b.Blocks[b.GetHeight()+1:]...)].
    [GetHeight] stores the height it returns in the cache field. *)
Definition RemoveBlock (b : Blockchain) : result Blockchain :=
  let h := GetHeight b in
  front <- slice_to (Blocks b) h ;;
  back <- slice_from (Blocks b) (uint (h + 1)) ;;
  Ok (mkBlockchain (front ++ back) h).

Section Genesis.
Context {E : Externals}.

(** [func InitBlockchain() Blockchain].  [minerKey] is what
    [mainKeys.GetPubKeyStr()] returns for the fresh key of package [ellip]. *)
Definition InitBlockchain (minerKey : string) : Blockchain :=
  let b := mkBlockchain [] 0 in
  let genisisB :=
    mkBlock SoftwareVersion "CoolGenisisBLock" "" 0 0x1d0fffff 0 minerKey [] "" in
  AddBlock b genisisB.

End Genesis.

(** The value [GetBlockReward] returns, 0 where it does not return. *)
Definition reward_value (h : Z) : Z :=
  match GetBlockReward h with
  | Ok reward => reward
  | Panic _ => 0
  end.

(** The rewards of the [n] heights from [from] on, added up. *)
Fixpoint issued (from : Z) (n : nat) : Z :=
  match n with
  | O => 0
  | S n' => reward_value from + issued (from + 1) n'
  end.

(** The rewards of the first [eras] halving periods, a period at a time:
    525600 times the reward at the start of each. *)
Fixpoint era_total (eras : nat) : Z :=
  match eras with
  | O => 0
  | S e => era_total e + 525600 * reward_value (525600 * Z.of_nat e)
  end.

End Blockchain.

(** ** Package blockchain: the miner *)

Module Miner.

(** The [Miner] struct: the fields that carry data from one statement of
    [Start] to the next. *)
Record t : Type := mkMiner {
  inputBlockBytes : option (list byte);
  packedTarget : Z;
  unpackedTarget : list byte
}.

Definition zero_target_error : string := "cannot input target 0".
Definition large_target_error : string := "target is to large".
Definition no_data_error : string := "please input a block with data inside it".
Definition exhausted_error : string :=
  "you have reached the end of the defined search space! Impressive".

(** [func (m *Miner) inputTarget(inputTarget uint32) error]: the error, if
    any, and the miner with [packedTarget] assigned otherwise. *)
Definition inputTarget (m : t) (target : Z) : t * option string :=
  if target =? 0 then (m, Some zero_target_error)
  else if 0x1dffffff <? target then (m, Some large_target_error)
  else (mkMiner (inputBlockBytes m) target (unpackedTarget m), None).

Section WithExternals.
Context {E : Externals}.

(** The loop of [Miner.Start]:
    [for b.Nonce = 0; b.Nonce <= 0xFFFFFFFF; b.Nonce++ { ... }].
    [b.Nonce] is a [uint32], so [b.Nonce++] wraps.  [fuel] bounds the
    number of iterations run; [None] means the loop is still running
    when the fuel is spent.  [k] counts the iterations done, for the
    clock.  The progress printing is left out. *)
Fixpoint mining_loop (fuel : nat) (bytes target : list byte) (k : nat) (b : Block)
  : option (result (Block * option string)) :=
  match fuel with
  | O => None
  | S fuel' =>
      if Nonce b <=? 0xFFFFFFFF then
        let b := SetTimestamp b (u64 (CurrentUnix k)) in
        let hashData := bytes ++ Uint32toB (Nonce b) in
        let currentHash := ShakeSum256 32 hashData in
        if negb (bytes_Compare currentHash target =? 1) then
          Some (Ok (SetBlockHash b currentHash, None))
        else
          mining_loop fuel' bytes target (S k) (with_Nonce b (u32 (Nonce b + 1)))
      else Some (Ok (b, Some exhausted_error))
  end.

(** [func (m *Miner) Start(b Block) (Block, error)]. *)
Definition Start (fuel : nat) (m : t) (b : Block)
  : option (result (Block * option string)) :=
  let m := mkMiner (ParseBlockToBytes b) (packedTarget m) (unpackedTarget m) in
  match inputBlockBytes m with
  | None => Some (Ok (b, Some no_data_error))
  | Some bytes =>
      let (m, unpackErr) := inputTarget m (PackedTarget b) in
      match unpackErr with
      | Some err => Some (Panic err)
      | None =>
          let m := mkMiner (inputBlockBytes m) (packedTarget m)
                           (UnpackAsBytes (packedTarget m)) in
          mining_loop fuel bytes (unpackedTarget m) 0 (with_Nonce b 0)
      end
  end.

(** [nonce] solves the candidate whose bytes are [bytes]: the hash of
    the bytes followed by the nonce, read as a big-endian unsigned
    integer, is at most the expanded target. *)
Definition solves (bytes : list byte) (packed : Z) (nonce : Z) : Prop :=
  be_Z (ShakeSum256 32 (bytes ++ Uint32toB nonce)) <= Unpack packed.

(** The candidate [b] as [Start] returns it when iteration [k] succeeds
    with [nonce]. *)
Definition solved (b : Block) (bytes : list byte) (k : nat) (nonce : Z) : Block :=
  SetBlockHash
    (SetTimestamp (with_Nonce b nonce) (u64 (CurrentUnix k)))
    (ShakeSum256 32 (bytes ++ Uint32toB nonce)).

End WithExternals.

End Miner.

(** ** Package wallet *)

Module Wallet.
Import Blockchain.

Section WithExternals.
Context {E : Externals}.

(** The inner loop of both scans runs over the transactions of a block. *)
Definition received (pubKey : string) (txs : list LuTx) (balance : Z) : Z :=
  fold_left
    (fun balance tx =>
       if String.eqb (TxTo tx) pubKey then u64 (balance + Value tx) else balance)
    txs balance.

Definition sent (pubKey : string) (txs : list LuTx) (nonce : Z) : Z :=
  fold_left
    (fun nonce tx =>
       if String.eqb (TxFrom tx) pubKey then u32 (nonce + 1) else nonce)
    txs nonce.

(** The outer loop of [ScanChainForBalance] from position [index] on;
    [blocks] are the blocks from that position, [h] is [GetHeight()] of
    the whole chain. *)
Fixpoint scan_balance (pubKey : string) (h : Z) (blocks : list Block)
         (index : Z) (balance : Z) : result Z :=
  match blocks with
  | [] => Ok balance
  | blk :: rest =>
      balance <-
        (if String.eqb (Miner blk) pubKey && (index + 10 <? int_of_uint h)
         then
           reward <- GetBlockReward (u32 index) ;;
           Ok (u64 (balance + reward))
         else Ok balance) ;;
      scan_balance pubKey h rest (index + 1) (received pubKey (Txs blk) balance)
  end.

(** [func (w *Wallet) ScanChainForBalance(pubKey string) (balance uint64)]. *)
Definition ScanChainForBalance (chain : Blockchain) (pubKey : string) : result Z :=
  scan_balance pubKey (GetHeight chain) (Blocks chain) 0 0.

(** [func (w *Wallet) ScanChainForNonce(pubKey string) (nonce uint32)]. *)
Definition ScanChainForNonce (chain : Blockchain) (pubKey : string) : Z :=
  fold_left (fun nonce blk => sent pubKey (Txs blk) nonce) (Blocks chain) 0.

(** [func (w *Wallet) VerifyTx(tx transactions.LuTx) bool].  The
    subtraction and the sum are [uint64] operations. *)
Definition VerifyTx (chain : Blockchain) (tx : LuTx) : result bool :=
  balance <- ScanChainForBalance chain (TxFrom tx) ;;
  if 0 <? u64 (balance - u64 (Value tx + Fee tx)) then Ok false
  else if negb (TxNonce tx =? ScanChainForNonce chain (TxFrom tx)) then Ok false
  else
    let signature := hex_DecodeString (Signature tx) in
    let tx := with_Signature tx "" in
    let txBytes := AsBytes tx in
    let pubKey := hex_DecodeString (TxFrom tx) in
    let txHash := ShakeSum256 32 txBytes in
    Ok (ValidateSig pubKey txHash signature).

(** The transaction loop of [VerifyBlock]:
    [for index := 0; index < len(block.Txs); index += 1], with
    [len(block.Txs)] read again at every test.  Each iteration raises
    [index] and never lengthens the list, so [length txs - index]
    iterations are enough; the caller passes that many. *)
Fixpoint check_txs (fuel : nat) (chain : Blockchain) (txs : list LuTx)
         (index : nat) : result (list LuTx) :=
  match fuel with
  | O => Ok txs
  | S fuel' =>
      match nth_error txs index with
      | None => Ok txs
      | Some tx =>
          valid <- VerifyTx chain tx ;;
          if negb valid
          then check_txs fuel' chain (RemoveTx txs index) (S index)
          else check_txs fuel' chain txs (S index)
      end
  end.

(** [func (w *Wallet) VerifyBlock(block *blockchain.Block,
    checkSoftwareVersion bool) bool], for a [block] that is not stored
    in the wallet's chain.  The block behind the pointer is returned
    with the verdict. *)
Definition VerifyBlock (chain : Blockchain) (block : Block)
           (checkSoftwareVersion : bool) : result (bool * Block) :=
  if Z.of_nat (length (Blocks chain)) =? 1 then Ok (true, block)
  else if checkSoftwareVersion
          && negb (String.eqb (BlockSoftwareVersion block) SoftwareVersion)
  then Ok (false, block)
  else
    let softwareVersion := list_byte_of_string (BlockSoftwareVersion block) in
    let prevBlockHash := hex_DecodeString (PrevHash block) in
    let merkleRoot := hex_DecodeString (MerkleRoot block) in
    let blockTime := Uint64toB (Timestamp block) in
    let packedTargetBytes := Uint32toB (PackedTarget block) in
    let nonceBytes := Uint32toB (Nonce block) in
    let softwareVersion :=
      softwareVersion ++ prevBlockHash ++ merkleRoot ++ packedTargetBytes
                      ++ blockTime ++ nonceBytes in
    let hash := ShakeSum256 32 softwareVersion in
    if negb (String.eqb (hex_EncodeToString hash) (BlockHash block))
    then Ok (false, block)
    else
      tip <- index (Blocks chain) (GetHeight chain) ;;
      if negb (String.eqb (PrevHash block) (BlockHash tip)) then Ok (false, block)
      else if (Timestamp block <? Timestamp tip)
              || (CurrentUnix 0 <? Timestamp block)
      then Ok (false, block)
      else
        target <- CalculatePackedTarget chain (uint (Z.of_nat (length (Blocks chain)))) ;;
        if negb (PackedTarget block =? target) then Ok (false, block)
        else if negb (String.eqb (MerkleRoot block) (GetMerkleRoot block))
        then Ok (false, block)
        else
          txs <- check_txs (length (Txs block)) chain (Txs block) 0 ;;
          Ok (true, with_Txs block txs).

(** Rules 2 to 7 of [VerifyBlock] hold for [block] on a chain that is
    not the genesis alone: version (when asked for), header hash, link to
    the tip, timestamp window, target, Merkle root. *)
Definition header_rules_pass (chain : Blockchain) (block : Block)
           (checkSoftwareVersion : bool) : Prop :=
  Z.of_nat (length (Blocks chain)) <> 1 /\
  (checkSoftwareVersion = true -> BlockSoftwareVersion block = SoftwareVersion) /\
  hex_EncodeToString
    (ShakeSum256 32
       (list_byte_of_string (BlockSoftwareVersion block)
          ++ hex_DecodeString (PrevHash block)
          ++ hex_DecodeString (MerkleRoot block)
          ++ Uint32toB (PackedTarget block)
          ++ Uint64toB (Timestamp block)
          ++ Uint32toB (Nonce block))) = BlockHash block /\
  (exists tip,
      index (Blocks chain) (GetHeight chain) = Ok tip /\
      PrevHash block = BlockHash tip /\
      Timestamp tip <= Timestamp block <= CurrentUnix 0) /\
  CalculatePackedTarget chain (uint (Z.of_nat (length (Blocks chain))))
  = Ok (PackedTarget block) /\
  MerkleRoot block = GetMerkleRoot block.


(** *** Validation of the blocks of the chain itself

    [VerifyBlockchain] hands [VerifyBlock] a pointer into the chain,
    [&w.chain.Blocks[blockIndex]]: what the transaction loop removes from
    the block it removes from the chain that [VerifyTx] scans. *)

(** [s[i] = x] for a position within the slice. *)
Fixpoint replace_nth {A : Type} (s : list A) (i : nat) (x : A) : list A :=
  match s, i with
  | [], _ => []
  | _ :: rest, O => x :: rest
  | y :: rest, S i' => y :: replace_nth rest i' x
  end.

(** The transaction loop of [VerifyBlock] on block [i] of the chain. *)
Fixpoint check_txs_at (fuel : nat) (chain : Blockchain) (i index : nat)
  : result Blockchain :=
  match fuel with
  | O => Ok chain
  | S fuel' =>
      match nth_error (Blocks chain) i with
      | None => Panic index_out_of_range
      | Some block =>
          match nth_error (Txs block) index with
          | None => Ok chain
          | Some tx =>
              valid <- VerifyTx chain tx ;;
              if negb valid
              then
                check_txs_at fuel'
                  (mkBlockchain
                     (replace_nth (Blocks chain) i
                        (with_Txs block (RemoveTx (Txs block) index)))
                     (height chain))
                  i (S index)
              else check_txs_at fuel' chain i (S index)
          end
      end
  end.

(** [w.VerifyBlock(&w.chain.Blocks[i], checkSoftwareVersion)]: the verdict
    and the chain as the call leaves it.  The first [GetHeight()] stores
    the height in the chain's cache field. *)
Definition VerifyBlockAt (chain : Blockchain) (i : nat)
           (checkSoftwareVersion : bool) : result (bool * Blockchain) :=
  block <- index (Blocks chain) (Z.of_nat i) ;;
  if Z.of_nat (length (Blocks chain)) =? 1 then Ok (true, chain)
  else if checkSoftwareVersion
          && negb (String.eqb (BlockSoftwareVersion block) SoftwareVersion)
  then Ok (false, chain)
  else
    let softwareVersion := list_byte_of_string (BlockSoftwareVersion block) in
    let prevBlockHash := hex_DecodeString (PrevHash block) in
    let merkleRoot := hex_DecodeString (MerkleRoot block) in
    let blockTime := Uint64toB (Timestamp block) in
    let packedTargetBytes := Uint32toB (PackedTarget block) in
    let nonceBytes := Uint32toB (Nonce block) in
    let softwareVersion :=
      softwareVersion ++ prevBlockHash ++ merkleRoot ++ packedTargetBytes
                      ++ blockTime ++ nonceBytes in
    let hash := ShakeSum256 32 softwareVersion in
    if negb (String.eqb (hex_EncodeToString hash) (BlockHash block))
    then Ok (false, chain)
    else
      let chain := mkBlockchain (Blocks chain) (GetHeight chain) in
      tip <- index (Blocks chain) (GetHeight chain) ;;
      if negb (String.eqb (PrevHash block) (BlockHash tip)) then Ok (false, chain)
      else if (Timestamp block <? Timestamp tip)
              || (CurrentUnix 0 <? Timestamp block)
      then Ok (false, chain)
      else
        target <- CalculatePackedTarget chain (uint (Z.of_nat (length (Blocks chain)))) ;;
        if negb (PackedTarget block =? target) then Ok (false, chain)
        else if negb (String.eqb (MerkleRoot block) (GetMerkleRoot block))
        then Ok (false, chain)
        else
          chain <- check_txs_at (length (Txs block)) chain i 0 ;;
          Ok (true, chain).

(** The loop of [VerifyBlockchain]:
    [for blockIndex := 1; blockIndex < len(w.chain.Blocks); blockIndex += 1].
    The chain keeps its length, so [length (Blocks chain)] iterations are
    enough; the caller passes that many. *)
Fixpoint verify_blocks (fuel : nat) (chain : Blockchain) (blockIndex : nat)
  : result (bool * Blockchain) :=
  match fuel with
  | O => Ok (true, chain)
  | S fuel' =>
      if (blockIndex <? length (Blocks chain))%nat then
        verdict <- VerifyBlockAt chain blockIndex false ;;
        if negb (fst verdict) then Ok (false, snd verdict)
        else verify_blocks fuel' (snd verdict) (S blockIndex)
      else Ok (true, chain)
  end.

(** [func (w *Wallet) VerifyBlockchain() bool], with the chain as the call
    leaves it. *)
Definition VerifyBlockchain (chain : Blockchain) : result (bool * Blockchain) :=
  if Z.of_nat (length (Blocks chain)) =? 0 then Ok (true, chain)
  else
    genesis <- index (Blocks chain) 0 ;;
    if negb (Z.of_nat (length (Txs genesis)) =? 0) then Ok (false, chain)
    else if negb (PackedTarget genesis =? 0x1d0fffff) then Ok (false, chain)
    else verify_blocks (length (Blocks chain)) chain 1.

End WithExternals.

(** *** The account view in the words of the specification

    The balance of a key is the sum of the values it received plus the
    rewards of the blocks it mined that have at least [depth] blocks on top
    of them; the specification sets [depth] to 10. *)

Definition reward_of (h : Z) : Z :=
  if h / 525600 =? 0 then 200000000 else (200 / 2 ^ (h / 525600)) * 1000000.

Definition received_total (pubKey : string) (txs : list LuTx) : Z :=
  fold_right (fun tx acc => (if String.eqb (TxTo tx) pubKey then Value tx else 0) + acc)
             0 txs.

Definition blocks_on_top (len index : Z) : Z := len - 1 - index.

Fixpoint account_credit (depth : Z) (pubKey : string) (len : Z)
         (blocks : list Block) (index : Z) : Z :=
  match blocks with
  | [] => 0
  | blk :: rest =>
      (if String.eqb (Miner blk) pubKey && (depth <=? blocks_on_top len index)
       then reward_of index else 0)
      + received_total pubKey (Txs blk)
      + account_credit depth pubKey len rest (index + 1)
  end.

Definition derived_balance (depth : Z) (chain : Blockchain) (pubKey : string) : Z :=
  account_credit depth pubKey (Z.of_nat (length (Blocks chain))) (Blocks chain) 0.

End Wallet.

(** [kept] is [l] with some of its elements deleted: the elements that are
    left are in their original order and none is added or repeated. *)
Inductive subsequence {A : Type} : list A -> list A -> Prop :=
| subsequence_nil : subsequence [] []
| subsequence_keep (x : A) (kept l : list A) :
    subsequence kept l -> subsequence (x :: kept) (x :: l)
| subsequence_drop (x : A) (kept l : list A) :
    subsequence kept l -> subsequence kept (x :: l).

(** [b'] is [b] with some of its transactions removed. *)
Definition pruned_block (b b' : Block) : Prop :=
  with_Txs b (Txs b') = b' /\ subsequence (Txs b') (Txs b).

(** The same blocks in the same order, each with some of its transactions
    removed. *)
Definition pruned (blocks blocks' : list Block) : Prop :=
  Forall2 pruned_block blocks blocks'.

(** Block [j] names the hash of the last block as its previous hash and
    is not older than the last block. *)
Definition linked_to_tip (blocks : list Block) (j : nat) : Prop :=
  exists block tip,
    nth_error blocks j = Some block /\
    nth_error blocks (length blocks - 1) = Some tip /\
    PrevHash block = BlockHash tip /\
    Timestamp tip <= Timestamp block.

(** No two neighbours in [txs] both fail [valid]. *)
Fixpoint no_adjacent_failures (valid : LuTx -> bool) (txs : list LuTx) : bool :=
  match txs with
  | t1 :: (t2 :: _) as rest => (valid t1 || valid t2) && no_adjacent_failures valid rest
  | _ => true
  end.

(** ** Package transactions *)

Module Transactions.

Definition no_miner_error : string :=
  "Cannot create a transaction with no id for the winning miner!".

(** [func (w *Weight) WeightPLuX(tx *PLuX) error]: the weight (a [uint32])
    as the call leaves it, and the error.  [luckyMiner] is the field of
    that name of [tx], [None] when it is nil. *)
Definition WeightPLuX (weight : Z) (luckyMiner : option (list byte))
  : Z * option string :=
  let weight := u32 (weight + 8 * 2) in
  let weight := u32 (weight + 4) in
  match luckyMiner with
  | None => (weight, Some no_miner_error)
  | Some miner => (u32 (weight + u32 (Z.of_nat (length miner))), None)
  end.

End Transactions.

(** ** Sample ledgers and collaborators

    Concrete inputs on which the theorems below are exercised. *)

Module Sample.

(** A week of blocks that all carry the same timestamp. *)
Definition stalled_block : Block :=
  mkBlock "1.0" "" "" 1700000000 0x1d0fffff 0 "miner" [] "".

Definition stalled_chain : Blockchain :=
  mkBlockchain (repeat stalled_block (Z.to_nat 10080)) 0.

(** A week of blocks at target [packed] whose first and last timestamps
    are [elapsed] seconds apart. *)
Definition week_block (packed t : Z) : Block :=
  mkBlock "1.0" "" "" t packed 0 "miner" [] "".

Definition week_chain (packed elapsed : Z) : Blockchain :=
  mkBlockchain
    (week_block packed 1700000000
       :: repeat (week_block packed 1700000001) (Z.to_nat 10078)
       ++ [week_block packed (1700000000 + elapsed)]) 0.

(** Hex encoding as in Go's [encoding/hex]. *)
Definition hex_digit (n : Z) : ascii :=
  ascii_of_nat (Z.to_nat (if n <? 10 then 48 + n else 87 + n)).

Definition hex_encode (l : list byte) : string :=
  string_of_list_ascii
    (flat_map (fun x => [hex_digit (byte.unsigned x / 16);
                         hex_digit (byte.unsigned x mod 16)]) l).

Definition hex_value (c : ascii) : option Z :=
  let n := Z.of_nat (nat_of_ascii c) in
  if (48 <=? n) && (n <=? 57) then Some (n - 48)
  else if (97 <=? n) && (n <=? 102) then Some (n - 87)
  else if (65 <=? n) && (n <=? 70) then Some (n - 55)
  else None.

Fixpoint hex_decode_chars (l : list ascii) : list byte :=
  match l with
  | hi :: lo :: rest =>
      match hex_value hi, hex_value lo with
      | Some h, Some l => byte.of_Z (16 * h + l) :: hex_decode_chars rest
      | _, _ => []
      end
  | _ => []
  end.

Definition hex_decode (s : string) : list byte :=
  hex_decode_chars (list_ascii_of_string s).

(** A stand-in for the hash: every output byte is 3 minus the sum of the
    input bytes, modulo 256. *)
Definition byte_sum (data : list byte) : Z :=
  fold_left (fun acc x => acc + byte.unsigned x) data 0.

Definition small_hash (n : nat) (data : list byte) : list byte :=
  repeat (byte.of_Z (3 - byte_sum data)) n.

(** A stand-in for a hash that no nonce brings under a target. *)
Definition high_hash (n : nat) (data : list byte) : list byte :=
  repeat Byte.xff n.

Definition collaborators (hash : nat -> list byte -> list byte)
           (hash_length : forall n data, length (hash n data) = n) : Externals :=
  {| SoftwareVersion := "1.0";
     ShakeSum256 := hash;
     ShakeSum256_length := hash_length;
     hex_EncodeToString := hex_encode;
     hex_DecodeString := hex_decode;
     Uint32toB := Z_to_be 4;
     Uint64toB := Z_to_be 8;
     CurrentUnix := fun k => 1700000000 + Z.of_nat k;
     ValidateSig := fun pubKey hash signature =>
                      match signature with [] => false | _ :: _ => true end;
     AsBytes := fun tx => list_byte_of_string (TxFrom tx) ++ list_byte_of_string (TxTo tx);
     ParseBlockToBytes := fun b => Some (hex_decode (PrevHash b));
     GetMerkleRoot := fun b => match Txs b with [] => "" | _ :: _ => "6d" end |}.

Definition small_env : Externals :=
  collaborators small_hash (fun n data => repeat_length _ n).

Definition high_env : Externals :=
  collaborators high_hash (fun n data => repeat_length _ n).

(** A candidate at the genesis target. *)
Definition candidate : Block :=
  mkBlock "1.0" "" "" 0 0x1d0fffff 0 "miner" [] "".

(** The same candidate with no target, and with one above the bound. *)
Definition candidate_zero_target : Block :=
  mkBlock "1.0" "" "" 0 0 0 "miner" [] "".

Definition candidate_large_target : Block :=
  mkBlock "1.0" "" "" 0 0x1e000000 0 "miner" [] "".

Definition idle_miner : Miner.t := Miner.mkMiner None 0 [].





(** A ledger in which "alice" received 100 from "bob". *)
Definition genesis : Block :=
  mkBlock "1.0" "CoolGenisisBLock" "" 1600000000 0x1d0fffff 0 "miner" [] "00".

Definition payment : LuTx := mkLuTx "bob" "alice" 100 0 0 "aa".

Definition second_block : Block :=
  mkBlock "1.0" "00" "6d" 1600000060 0x1d0fffff 0 "miner" [payment] "01".

Definition funded_chain : Blockchain := mkBlockchain [genesis; second_block] 0.

(** Spends by "alice": one that her balance covers with room to spare, one
    that takes exactly her balance, one that exceeds it, and a covered one
    with a nonce that is not her transaction count. *)
Definition covered_spend : LuTx := mkLuTx "alice" "carol" 10 5 0 "aa".
Definition exact_spend : LuTx := mkLuTx "alice" "carol" 95 5 0 "aa".
Definition overdraft : LuTx := mkLuTx "alice" "carol" 200 5 0 "aa".
Definition second_overdraft : LuTx := mkLuTx "alice" "dave" 300 5 0 "aa".
Definition replayed_spend : LuTx := mkLuTx "alice" "carol" 95 5 7 "aa".

(** A block mined by "miner" under blocks mined by "other": [top] blocks
    on top of it. *)
Definition other_block : Block :=
  mkBlock "1.0" "" "" 1600000060 0x1d0fffff 0 "other" [] "".

Definition buried (top : nat) : Blockchain :=
  mkBlockchain (genesis :: repeat other_block top) 0.

(** A ledger that has passed the 64th halving, every block of it mined by
    "alice" and empty: 33638412 blocks, so that block 33638400 has 11
    blocks on top. *)
Definition old_block : Block :=
  mkBlock "1.0" "" "" 1600000060 0x1d0fffff 0 "alice" [] "".

Definition old_chain : Blockchain :=
  mkBlockchain (repeat old_block (Z.to_nat 33638412)) 0.

(** A block on top of [funded_chain] whose two transactions both fail
    [VerifyTx]; its hash is the one the stand-in hash gives its header. *)
Definition third_block : Block :=
  let b := mkBlock "1.0" "01" "6d" 1600000120 0x1d0fffff 0 "miner"
                   [overdraft; second_overdraft] "" in
  with_BlockHash b
    (hex_encode
       (small_hash 32
          (list_byte_of_string (BlockSoftwareVersion b)
             ++ hex_decode (PrevHash b) ++ hex_decode (MerkleRoot b)
             ++ Z_to_be 4 (PackedTarget b) ++ Z_to_be 8 (Timestamp b)
             ++ Z_to_be 4 (Nonce b)))).

(** A block on top of [funded_chain] with an overdraft followed by a spend
    of the exact balance. *)
Definition mixed_block : Block :=
  let b := mkBlock "1.0" "01" "6d" 1600000120 0x1d0fffff 0 "miner"
                   [overdraft; exact_spend] "" in
  with_BlockHash b
    (hex_encode
       (small_hash 32
          (list_byte_of_string (BlockSoftwareVersion b)
             ++ hex_decode (PrevHash b) ++ hex_decode (MerkleRoot b)
             ++ Z_to_be 4 (PackedTarget b) ++ Z_to_be 8 (Timestamp b)
             ++ Z_to_be 4 (Nonce b)))).

(** A ledger of two blocks that [VerifyBlockchain] accepts under the hash
    stand-in [high_hash]: the second block names its own hash as the
    previous one. *)
Definition all_ff : string :=
  "ffffffffffffffffffffffffffffffffffffffffffffffffffffffffffffffff".

Definition self_linked_block : Block :=
  mkBlock "1.0" all_ff "" 1600000060 0x1d0fffff 0 "miner" [] all_ff.

Definition self_linked_chain : Blockchain :=
  mkBlockchain [genesis; self_linked_block] 0.

(** The same with an overdraft in the second block. *)
Definition self_linked_spending_block : Block :=
  mkBlock "1.0" all_ff "6d" 1600000060 0x1d0fffff 0 "miner" [overdraft] all_ff.

Definition self_linked_spending_chain : Blockchain :=
  mkBlockchain [genesis; self_linked_spending_block] 0.

End Sample.

(* ===================================================================== *)
(** * Part II: theorems                                                   *)
(* ===================================================================== *)

(** ** Reward schedule *)

Lemma shiftl_2_pow (k : Z) : 1 <= k -> Z.shiftl 2 (k - 1) = 2 ^ k.
Proof.
  intros Hk. rewrite Z.shiftl_mul_pow2 by lia.
  replace k with (1 + (k - 1)) at 2 by lia.
  rewrite Z.pow_add_r by lia. reflexivity.
Qed.

Lemma halvings_u32 (h : Z) : 0 <= h < 2 ^ 32 -> 1 <= h / 525600 ->
  u32 (h / 525600 - 1) = h / 525600 - 1.
Proof.
  intros Hh Hk. unfold u32. apply Z.mod_small.
  assert (h / 525600 <= h) by (apply Z.div_le_upper_bound; lia).
  lia.
Qed.

(** Below the 64th halving the divisor is [2 ^ halvings]. *)
Lemma GetBlockReward_halved (h : Z) :
  0 <= h < 2 ^ 32 -> 1 <= h / 525600 <= 63 ->
  Blockchain.GetBlockReward h = Ok ((200 / 2 ^ (h / 525600)) * 1000000).
Proof.
  intros Hh Hk. unfold Blockchain.GetBlockReward.
  destruct (Z.eqb_spec (h / 525600) 0) as [E | _]; [lia |].
  rewrite halvings_u32 by lia. rewrite shiftl_2_pow by lia.
  set (k := h / 525600) in *.
  assert (Hlo : 0 < 2 ^ k) by (apply Z.pow_pos_nonneg; lia).
  assert (Hhi : 2 ^ k < 2 ^ 64) by (apply Z.pow_lt_mono_r; lia).
  assert (Hd : u64 (2 ^ k) = 2 ^ k) by (apply Z.mod_small; lia).
  cbv zeta. rewrite !Hd.
  destruct (Z.eqb_spec (2 ^ k) 0) as [E | _]; [lia |].
  f_equal. unfold u64. apply Z.mod_small.
  assert (0 <= 200 / 2 ^ k <= 200).
  { split; [apply Z.div_pos; lia |].
    apply Z.div_le_upper_bound; nia. }
  lia.
Qed.

(** From the 8th to the 63rd halving the reward is zero. *)
Lemma GetBlockReward_dry (h : Z) :
  0 <= h < 2 ^ 32 -> 8 <= h / 525600 <= 63 -> Blockchain.GetBlockReward h = Ok 0.
Proof.
  intros Hh Hk. rewrite GetBlockReward_halved by lia.
  assert (2 ^ 8 <= 2 ^ (h / 525600)) by (apply Z.pow_le_mono_r; lia).
  rewrite Z.div_small by lia. reflexivity.
Qed.

(** From the 64th halving on, the shift leaves a zero divisor. *)
Lemma GetBlockReward_panics (h : Z) :
  0 <= h < 2 ^ 32 -> 64 <= h / 525600 -> Blockchain.GetBlockReward h = Panic divide_by_zero.
Proof.
  intros Hh Hk. unfold Blockchain.GetBlockReward.
  destruct (Z.eqb_spec (h / 525600) 0) as [E | _]; [lia |].
  rewrite halvings_u32 by lia. rewrite shiftl_2_pow by lia.
  set (k := h / 525600) in *.
  replace k with (64 + (k - 64)) by lia.
  rewrite Z.pow_add_r by lia.
  unfold u64. rewrite Z.mul_comm, Z.mod_mul by lia. reflexivity.
Qed.

(** C6.  The reward schedule at its stated points, and the height at
    which it stops returning: 200_000_000 before the first halving,
    100_000_000 and 50_000_000 at the first two boundaries, 0 at the 8th
    boundary, and a division by zero (no reward returned) at the 64th
    boundary [525600 * 64], a height that is at or beyond the 8th. *)
Theorem GetBlockReward_schedule_breaks :
  Blockchain.GetBlockReward 0 = Ok 200000000 /\
  Blockchain.GetBlockReward 525600 = Ok 100000000 /\
  Blockchain.GetBlockReward (525600 * 2) = Ok 50000000 /\
  Blockchain.GetBlockReward (525600 * 8) = Ok 0 /\
  525600 * 8 <= 525600 * 64 < 2 ^ 32 /\
  Blockchain.GetBlockReward (525600 * 64) = Panic divide_by_zero.
Proof. repeat split; try reflexivity; vm_compute; congruence. Qed.

(** ** Chain access *)

Lemma index_in_range {A : Type} (s : list A) (i : Z) :
  0 <= i < Z.of_nat (length s) ->
  exists x, nth_error s (Z.to_nat i) = Some x /\ index s i = Ok x.
Proof.
  intros Hi. unfold index.
  destruct (Z.ltb_spec i (Z.of_nat (length s))) as [_ | Hge]; [| lia].
  destruct (nth_error s (Z.to_nat i)) as [x |] eqn:Hnth.
  - exists x. split; reflexivity.
  - apply nth_error_None in Hnth. lia.
Qed.

Lemma index_out_of_range_panics {A : Type} (s : list A) (i : Z) :
  Z.of_nat (length s) <= i -> index s i = Panic index_out_of_range.
Proof.
  intros Hi. unfold index.
  destruct (Z.ltb_spec i (Z.of_nat (length s))) as [Hlt | _]; [lia | reflexivity].
Qed.

Lemma GetHeight_nonempty (b : Blockchain) :
  Blocks b <> [] -> Z.of_nat (length (Blocks b)) < 2 ^ 63 ->
  Blockchain.GetHeight b = Z.of_nat (length (Blocks b)) - 1.
Proof.
  intros Hne Hlen. unfold Blockchain.GetHeight, uint.
  destruct (Blocks b) as [| blk rest]; [congruence |].
  apply Z.mod_small. cbn [length] in *. lia.
Qed.

Lemma GetHeight_empty (b : Blockchain) :
  Blocks b = [] -> Blockchain.GetHeight b = 2 ^ 64 - 1.
Proof. intros Hnil. unfold Blockchain.GetHeight. rewrite Hnil. reflexivity. Qed.

(** C10.  On a chain with at least one block, [GetBlock] returns the
    stored block and [true] for an index up to the height [length - 1],
    and the empty block and [false] beyond it.  On an empty chain the
    height is computed as [2^64 - 1], no index is rejected, and the access
    that follows is out of range.  [blockNum] is a [uint]; a slice has
    fewer than [2^63] elements. *)
Theorem GetBlock_bounds (b : Blockchain) (blockNum : Z) :
  0 <= blockNum < 2 ^ 64 ->
  Z.of_nat (length (Blocks b)) < 2 ^ 63 ->
  (Blocks b <> [] ->
     (blockNum <= Z.of_nat (length (Blocks b)) - 1 ->
        exists blk, nth_error (Blocks b) (Z.to_nat blockNum) = Some blk /\
                    Blockchain.GetBlock b blockNum = Ok (blk, true)) /\
     (Z.of_nat (length (Blocks b)) - 1 < blockNum ->
        Blockchain.GetBlock b blockNum = Ok (empty_Block, false))) /\
  (Blocks b = [] ->
     Blockchain.GetHeight b = 2 ^ 64 - 1 /\
     Blockchain.GetBlock b blockNum = Panic index_out_of_range).
Proof.
  intros Hnum Hlen. split.
  - intros Hne. unfold Blockchain.GetBlock.
    rewrite (GetHeight_nonempty b Hne Hlen). split; intros Hcmp.
    + destruct (Z.ltb_spec (Z.of_nat (length (Blocks b)) - 1) blockNum) as [Hlt | _];
        [lia |].
      destruct (index_in_range (Blocks b) blockNum) as [blk [Hnth Hidx]]; [lia |].
      exists blk. rewrite Hidx. split; [exact Hnth | reflexivity].
    + destruct (Z.ltb_spec (Z.of_nat (length (Blocks b)) - 1) blockNum) as [_ | Hge];
        [reflexivity | lia].
  - intros Hnil. split; [apply GetHeight_empty; exact Hnil |].
    unfold Blockchain.GetBlock. rewrite (GetHeight_empty b Hnil).
    destruct (Z.ltb_spec (2 ^ 64 - 1) blockNum) as [Hlt | _]; [lia |].
    rewrite index_out_of_range_panics by (rewrite Hnil; cbn; lia).
    reflexivity.
Qed.

Lemma GetBlock_bounds_witness :
  0 <= 1 < 2 ^ 64 /\
  Z.of_nat (length (Blocks Sample.funded_chain)) < 2 ^ 63 /\
  (Blocks Sample.funded_chain <> [] ->
     (1 <= Z.of_nat (length (Blocks Sample.funded_chain)) - 1 ->
        exists blk, nth_error (Blocks Sample.funded_chain) (Z.to_nat 1) = Some blk /\
                    Blockchain.GetBlock Sample.funded_chain 1 = Ok (blk, true)) /\
     (Z.of_nat (length (Blocks Sample.funded_chain)) - 1 < 1 ->
        Blockchain.GetBlock Sample.funded_chain 1 = Ok (empty_Block, false))) /\
  (Blocks Sample.funded_chain = [] ->
     Blockchain.GetHeight Sample.funded_chain = 2 ^ 64 - 1 /\
     Blockchain.GetBlock Sample.funded_chain 1 = Panic index_out_of_range).
Proof.
  split; [vm_compute; intuition congruence |].
  split; [vm_compute; reflexivity |].
  apply (GetBlock_bounds Sample.funded_chain 1).
  - vm_compute; intuition congruence.
  - vm_compute; reflexivity.
Defined.

(** On the sample ledger of two blocks: index 1 is the last block, index 2
    is rejected; on the empty ledger index 0 is not rejected and the access
    panics. *)
Example GetBlock_on_samples :
  Blockchain.GetBlock Sample.funded_chain 1 = Ok (Sample.second_block, true) /\
  Blockchain.GetBlock Sample.funded_chain 2 = Ok (empty_Block, false) /\
  Blockchain.GetBlock (mkBlockchain [] 0) 0 = Panic index_out_of_range.
Proof. vm_compute. repeat split; reflexivity. Qed.

(** ** Retargeting *)

Lemma uint_small (x : Z) : 0 <= x < 2 ^ 64 -> uint x = x.
Proof. intros Hx. apply Z.mod_small. exact Hx. Qed.

(** What [CalculatePackedTarget] does for a block number within the chain:
    away from a boundary the previous target; at a boundary the clamped,
    re-packed product when the elapsed time is not zero, and a division by
    zero when it is. *)
Lemma CalculatePackedTarget_within (b : Blockchain) (blockNumber : Z) :
  1 <= blockNumber <= Z.of_nat (length (Blocks b)) ->
  Z.of_nat (length (Blocks b)) < 2 ^ 63 ->
  exists prev,
    nth_error (Blocks b) (Z.to_nat (blockNumber - 1)) = Some prev /\
    (blockNumber mod 10080 <> 0 ->
       Blockchain.CalculatePackedTarget b blockNumber = Ok (PackedTarget prev)) /\
    (blockNumber mod 10080 = 0 ->
       exists oldest,
         nth_error (Blocks b) (Z.to_nat (blockNumber - 10080)) = Some oldest /\
         let elapsed := u64 (Timestamp prev - Timestamp oldest) in
         (elapsed = 0 ->
            Blockchain.CalculatePackedTarget b blockNumber = Panic divide_by_zero) /\
         (elapsed <> 0 ->
            let product := u256 (Unpack (PackedTarget prev) * ((10080 * 60) / elapsed)) in
            Blockchain.CalculatePackedTarget b blockNumber =
            Ok (if Unpack genesisPackedTarget <? product
                then genesisPackedTarget
                else PackTargetUint256 product))).
Proof.
  intros Hbn Hlen.
  destruct (index_in_range (Blocks b) (blockNumber - 1)) as [prev [Hnth Hidx]]; [lia |].
  exists prev. split; [exact Hnth |].
  unfold Blockchain.CalculatePackedTarget.
  destruct (Z.ltb_spec (Z.of_nat (length (Blocks b))) blockNumber) as [Hlt | _]; [lia |].
  rewrite (uint_small (blockNumber - 1)) by lia. rewrite Hidx.
  split.
  - intros Hmod.
    destruct (Z.eqb_spec (blockNumber mod 10080) 0) as [E | _]; [contradiction |].
    reflexivity.
  - intros Hmod.
    destruct (Z.eqb_spec (blockNumber mod 10080) 0) as [_ | Hne]; [| contradiction].
    assert (Hge : 10080 <= blockNumber).
    { destruct (Z.lt_ge_cases blockNumber 10080) as [Hsmall | Hok]; [| exact Hok].
      rewrite Z.mod_small in Hmod by lia. lia. }
    destruct (index_in_range (Blocks b) (blockNumber - 10080)) as [oldest [Hnth' Hidx']];
      [lia |].
    exists oldest. split; [exact Hnth' |].
    rewrite (uint_small (blockNumber - 10080)) by lia. rewrite Hidx'.
    cbn [bind]. cbv zeta. split.
    + intros Hzero. rewrite Hzero. reflexivity.
    + intros Hnz.
      destruct (Z.eqb_spec (u64 (Timestamp prev - Timestamp oldest)) 0) as [E | _];
        [contradiction |].
      assert (Hpos : 0 < u64 (Timestamp prev - Timestamp oldest)).
      { pose proof (Z.mod_pos_bound (Timestamp prev - Timestamp oldest) (2 ^ 64)) as Hb.
        unfold u64 in *. lia. }
      assert (Hmul : u256 (10080 * 60 / u64 (Timestamp prev - Timestamp oldest))
                     = 10080 * 60 / u64 (Timestamp prev - Timestamp oldest)).
      { apply Z.mod_small. split; [apply Z.div_pos; lia |].
        apply Z.le_lt_trans with (10080 * 60); [| reflexivity].
        apply Z.div_le_upper_bound; nia. }
      rewrite Hmul. fold genesisPackedTarget.
      destruct (Unpack genesisPackedTarget <? _); reflexivity.
Qed.

(** C5.  A chain of 10080 blocks, so that block number 10080 is within the
    chain and a multiple of 10080, whose blocks all carry one timestamp:
    the elapsed time is zero and [CalculatePackedTarget] divides by it, so
    no target is returned. *)
Theorem CalculatePackedTarget_zero_elapsed :
  1 <= 10080 <= Z.of_nat (length (Blocks Sample.stalled_chain)) /\
  10080 mod 10080 = 0 /\
  Blockchain.CalculatePackedTarget Sample.stalled_chain 10080 = Panic divide_by_zero.
Proof. vm_compute. intuition congruence. Qed.

(** The retarget examples of the specification: a week that took exactly
    [10080 * 60] seconds leaves the target unchanged, one that took half of
    it doubles the target, and the doubled genesis target is clamped. *)
Example retarget_on_schedule :
  Blockchain.CalculatePackedTarget (Sample.week_chain 0x1c0fffff (10080 * 60)) 10080
  = Ok 0x1c0fffff.
Proof. vm_compute. reflexivity. Qed.

Example retarget_doubles :
  Blockchain.CalculatePackedTarget (Sample.week_chain 0x1c0fffff (10080 * 30)) 10080
  = Ok 0x1c1ffffe
  /\ Unpack 0x1c1ffffe = 2 * Unpack 0x1c0fffff.
Proof. vm_compute. split; reflexivity. Qed.

Example retarget_clamps :
  Blockchain.CalculatePackedTarget (Sample.week_chain 0x1d0fffff (10080 * 30)) 10080
  = Ok 0x1d0fffff.
Proof. vm_compute. reflexivity. Qed.

Example retarget_off_boundary :
  Blockchain.CalculatePackedTarget (Sample.week_chain 0x1c0fffff (10080 * 30)) 10079
  = Ok 0x1c0fffff.
Proof. vm_compute. reflexivity. Qed.

(** ** Bytes *)

Lemma be_Z_fold (l : list byte) (acc : Z) :
  fold_left (fun acc x => acc * 256 + byte.unsigned x) l acc
  = acc * 256 ^ Z.of_nat (length l) + be_Z l.
Proof.
  unfold be_Z. revert acc.
  induction l as [| x l IH]; intros acc.
  - cbn. lia.
  - cbn [fold_left length]. rewrite IH. rewrite (IH (0 * 256 + byte.unsigned x)).
    rewrite Nat2Z.inj_succ, Z.pow_succ_r by lia. ring.
Qed.

Lemma be_Z_cons (x : byte) (l : list byte) :
  be_Z (x :: l) = byte.unsigned x * 256 ^ Z.of_nat (length l) + be_Z l.
Proof.
  unfold be_Z at 1. cbn [fold_left]. rewrite be_Z_fold. ring.
Qed.

Lemma be_Z_app (l : list byte) (x : byte) :
  be_Z (l ++ [x]) = be_Z l * 256 + byte.unsigned x.
Proof. unfold be_Z. rewrite fold_left_app. reflexivity. Qed.

Lemma be_Z_range (l : list byte) : 0 <= be_Z l < 256 ^ Z.of_nat (length l).
Proof.
  induction l as [| x l IH].
  - cbn. lia.
  - rewrite be_Z_cons. cbn [length].
    rewrite Nat2Z.inj_succ, Z.pow_succ_r by lia.
    pose proof (byte.unsigned_range x) as Hx. change (2 ^ 8) with 256 in Hx.
    nia.
Qed.

(** On byte strings of one length, [bytes.Compare] is the order of the
    big-endian values. *)
Lemma bytes_Compare_greater (a b : list byte) :
  length a = length b ->
  (bytes_Compare a b = 1 <-> be_Z b < be_Z a).
Proof.
  revert b. induction a as [| x a IH]; intros [| y b] Hlen; try discriminate.
  - cbn. lia.
  - injection Hlen as Hlen. rewrite !be_Z_cons. rewrite <- Hlen.
    pose proof (be_Z_range a) as Ha. pose proof (be_Z_range b) as Hb.
    rewrite <- Hlen in Hb.
    assert (Hp : 0 < 256 ^ Z.of_nat (length a)) by (apply Z.pow_pos_nonneg; lia).
    cbn [bytes_Compare].
    destruct (Z.ltb_spec (byte.unsigned x) (byte.unsigned y)) as [Hxy | Hxy].
    + split; [discriminate | nia].
    + destruct (Z.ltb_spec (byte.unsigned y) (byte.unsigned x)) as [Hyx | Hyx].
      * split; [nia | reflexivity].
      * assert (Heq : byte.unsigned x = byte.unsigned y) by lia.
        rewrite Heq, (IH b Hlen). lia.
Qed.

Lemma Z_to_be_length (n : nat) (v : Z) : length (Z_to_be n v) = n.
Proof.
  revert v. induction n as [| n IH]; intros v; [reflexivity |].
  cbn [Z_to_be]. rewrite length_app, IH. cbn. lia.
Qed.

Lemma be_Z_to_be (n : nat) (v : Z) : be_Z (Z_to_be n v) = v mod 256 ^ Z.of_nat n.
Proof.
  revert v. induction n as [| n IH]; intros v.
  - cbn. rewrite Z.mod_1_r. reflexivity.
  - cbn [Z_to_be]. rewrite be_Z_app, IH, byte.unsigned_of_Z.
    unfold byte.wrap. change (2 ^ 8) with 256.
    rewrite Nat2Z.inj_succ, Z.pow_succ_r by lia.
    rewrite Z.rem_mul_r by (try apply Z.pow_nonzero; try apply Z.pow_pos_nonneg; lia).
    ring.
Qed.

(** ** Target codec *)

Lemma Unpack_range (compact : Z) : 0 <= compact -> 0 <= Unpack compact < 2 ^ 256.
Proof.
  intros Hc. unfold Unpack.
  assert (Hm : 0 <= Z.land compact 0xFFFFFF < 2 ^ 24).
  { change 0xFFFFFF with (Z.ones 24). rewrite Z.land_ones by lia.
    apply Z.mod_pos_bound. lia. }
  assert (He : 0 <= Z.shiftr compact 24) by (apply Z.shiftr_nonneg; exact Hc).
  cbv zeta.
  destruct (Z.leb_spec (Z.shiftr compact 24) 3) as [Hle | Hgt].
  - rewrite Z.shiftr_div_pow2 by lia.
    assert (Hp : 0 < 2 ^ (8 * (3 - Z.shiftr compact 24))) by (apply Z.pow_pos_nonneg; lia).
    split; [apply Z.div_pos; lia |].
    apply Z.le_lt_trans with (Z.land compact 0xFFFFFF); [| lia].
    apply Z.div_le_upper_bound; nia.
  - apply Z.mod_pos_bound. lia.
Qed.

Lemma UnpackAsBytes_length (compact : Z) : length (UnpackAsBytes compact) = 32%nat.
Proof. apply Z_to_be_length. Qed.

Lemma UnpackAsBytes_value (compact : Z) :
  0 <= compact -> be_Z (UnpackAsBytes compact) = Unpack compact.
Proof.
  intros Hc. unfold UnpackAsBytes. rewrite be_Z_to_be.
  apply Z.mod_small. change (256 ^ Z.of_nat 32) with (2 ^ 256).
  apply Unpack_range. exact Hc.
Qed.

(** ** The miner *)

(** Searching upwards from zero: below any bound, a decidable property
    either fails everywhere or has a least point where it holds. *)
Lemma bounded_search (P : Z -> Prop) (dec : forall z, {P z} + {~ P z}) (m : nat) :
  (forall j, 0 <= j < Z.of_nat m -> ~ P j) \/
  (exists n0, 0 <= n0 < Z.of_nat m /\ P n0 /\ forall j, 0 <= j < n0 -> ~ P j).
Proof.
  induction m as [| m [IH | [n0 [Hn0 [HP Hleast]]]]].
  - left. intros j Hj. lia.
  - destruct (dec (Z.of_nat m)) as [Hyes | Hno].
    + right. exists (Z.of_nat m). split; [lia |]. split; [exact Hyes |].
      intros j Hj. apply IH. lia.
    + left. intros j Hj.
      destruct (Z.eq_dec j (Z.of_nat m)) as [-> | Hne]; [exact Hno |].
      apply IH. lia.
  - right. exists n0. split; [lia |]. split; assumption.
Qed.


Section MinerTheorems.
Context {E : Externals}.

Lemma solves_dec (bytes : list byte) (packed nonce : Z) :
  {Miner.solves bytes packed nonce} + {~ Miner.solves bytes packed nonce}.
Proof. unfold Miner.solves. apply Z_le_dec. Qed.

(** The loop's test is the numeric comparison of the specification. *)
Lemma mining_test (bytes : list byte) (packed nonce : Z) :
  0 <= packed ->
  negb (bytes_Compare (ShakeSum256 32 (bytes ++ Uint32toB nonce))
                      (UnpackAsBytes packed) =? 1) = true
  <-> Miner.solves bytes packed nonce.
Proof.
  intros Hp. unfold Miner.solves.
  rewrite negb_true_iff, Z.eqb_neq.
  rewrite bytes_Compare_greater
    by (rewrite ShakeSum256_length, UnpackAsBytes_length; reflexivity).
  rewrite UnpackAsBytes_value by exact Hp. lia.
Qed.

Lemma with_Nonce_same (b : Block) : with_Nonce b (Nonce b) = b.
Proof. destruct b. reflexivity. Qed.

(** From a block at nonce [j], with no solution in [j, j + d) and one at
    [j + d], the loop returns after [d] further iterations. *)
Lemma mining_loop_finds (bytes : list byte) (packed : Z) (d : nat) :
  0 <= packed ->
  forall (j : Z) (k : nat) (b : Block) (fuel : nat),
    0 <= j -> j + Z.of_nat d < 2 ^ 32 ->
    Nonce b = j ->
    (forall i, j <= i < j + Z.of_nat d -> ~ Miner.solves bytes packed i) ->
    Miner.solves bytes packed (j + Z.of_nat d) ->
    (d < fuel)%nat ->
    Miner.mining_loop fuel bytes (UnpackAsBytes packed) k b
    = Some (Ok (Miner.solved b bytes (k + d) (j + Z.of_nat d), None)).
Proof.
  intros Hp. induction d as [| d IH]; intros j k b fuel Hj Hjd Hb Hnone Hsol Hfuel.
  - destruct fuel as [| fuel]; [lia |].
    rewrite Z.add_0_r in *. cbn [Miner.mining_loop].
    destruct (Z.leb_spec (Nonce b) 0xFFFFFFFF) as [_ | Hbig]; [| lia].
    cbn [SetTimestamp with_Timestamp Nonce]. rewrite Hb.
    apply (mining_test bytes packed j Hp) in Hsol. rewrite Hsol.
    unfold Miner.solved. rewrite Nat.add_0_r.
    rewrite <- Hb. rewrite with_Nonce_same. reflexivity.
  - destruct fuel as [| fuel]; [lia |].
    cbn [Miner.mining_loop].
    destruct (Z.leb_spec (Nonce b) 0xFFFFFFFF) as [_ | Hbig]; [| lia].
    cbn [SetTimestamp with_Timestamp Nonce]. rewrite Hb.
    destruct (negb (bytes_Compare (ShakeSum256 32 (bytes ++ Uint32toB j))
                                  (UnpackAsBytes packed) =? 1)) eqn:Htest.
    + apply (mining_test bytes packed j Hp) in Htest.
      exfalso. apply (Hnone j); [lia | exact Htest].
    + assert (Hwrap : u32 (j + 1) = j + 1) by (apply Z.mod_small; lia).
      rewrite Hwrap.
      rewrite (IH (j + 1) (S k) _ fuel); try lia.
      * f_equal. f_equal. f_equal.
        replace (j + 1 + Z.of_nat d) with (j + Z.of_nat (S d)) by lia.
        replace (S k + d)%nat with (k + S d)%nat by lia.
        destruct b. reflexivity.
      * reflexivity.
      * intros i Hi. apply Hnone. lia.
      * replace (j + 1 + Z.of_nat d) with (j + Z.of_nat (S d)) by lia. exact Hsol.
Qed.

(** With no solution among the 32-bit nonces the loop never leaves: the
    nonce wraps from [0xFFFFFFFF] to 0 and the test [b.Nonce <=
    0xFFFFFFFF] holds for every [uint32]. *)
Lemma mining_loop_spins (bytes : list byte) (packed : Z) :
  0 <= packed ->
  (forall i, 0 <= i < 2 ^ 32 -> ~ Miner.solves bytes packed i) ->
  forall (fuel k : nat) (b : Block),
    0 <= Nonce b < 2 ^ 32 ->
    Miner.mining_loop fuel bytes (UnpackAsBytes packed) k b = None.
Proof.
  intros Hp Hnone. induction fuel as [| fuel IH]; intros k b Hb; [reflexivity |].
  cbn [Miner.mining_loop].
  destruct (Z.leb_spec (Nonce b) 0xFFFFFFFF) as [_ | Hbig]; [| lia].
  cbn [SetTimestamp with_Timestamp Nonce].
  destruct (negb (bytes_Compare (ShakeSum256 32 (bytes ++ Uint32toB (Nonce b)))
                                (UnpackAsBytes packed) =? 1)) eqn:Htest.
  - apply (mining_test bytes packed (Nonce b) Hp) in Htest.
    exfalso. apply (Hnone (Nonce b)); assumption.
  - apply IH. cbn [with_Nonce Nonce]. apply Z.mod_pos_bound. lia.
Qed.

(** The branch after the loop is dead code: whatever the loop returns, it
    is not the exhaustion error. *)
Lemma mining_loop_never_exhausts (bytes target : list byte) :
  forall (fuel k : nat) (b b' : Block),
    0 <= Nonce b < 2 ^ 32 ->
    Miner.mining_loop fuel bytes target k b
    <> Some (Ok (b', Some Miner.exhausted_error)).
Proof.
  induction fuel as [| fuel IH]; intros k b b' Hb; [discriminate |].
  cbn [Miner.mining_loop].
  destruct (Z.leb_spec (Nonce b) 0xFFFFFFFF) as [_ | Hbig]; [| lia].
  destruct (negb _); [discriminate |].
  apply IH. cbn [with_Nonce Nonce]. apply Z.mod_pos_bound. lia.
Qed.

(** [Start] on a candidate with data and an accepted target is the loop
    from nonce 0. *)
Lemma Start_enters_loop (fuel : nat) (m : Miner.t) (b : Block) (bytes : list byte) :
  ParseBlockToBytes b = Some bytes ->
  0 < PackedTarget b <= 0x1dffffff ->
  Miner.Start fuel m b
  = Miner.mining_loop fuel bytes (UnpackAsBytes (PackedTarget b)) 0 (with_Nonce b 0).
Proof.
  intros Hbytes Htarget. unfold Miner.Start, Miner.inputTarget.
  cbn [Miner.inputBlockBytes]. rewrite Hbytes.
  destruct (Z.eqb_spec (PackedTarget b) 0) as [E0 | _]; [lia |].
  destruct (Z.ltb_spec 0x1dffffff (PackedTarget b)) as [Hbig | _]; [lia |].
  reflexivity.
Qed.

(** With fewer iterations than it takes to reach a solution the loop is
    still running. *)
Lemma mining_loop_short (bytes : list byte) (packed : Z) :
  0 <= packed ->
  forall (fuel d : nat) (j : Z) (k : nat) (b : Block),
    0 <= j -> j + Z.of_nat d <= 2 ^ 32 ->
    Nonce b = j ->
    (forall i, j <= i < j + Z.of_nat d -> ~ Miner.solves bytes packed i) ->
    (fuel <= d)%nat ->
    Miner.mining_loop fuel bytes (UnpackAsBytes packed) k b = None.
Proof.
  intros Hp. induction fuel as [| fuel IH]; intros d j k b Hj Hjd Hb Hnone Hfuel;
    [reflexivity |].
  destruct d as [| d]; [lia |].
  cbn [Miner.mining_loop].
  destruct (Z.leb_spec (Nonce b) 0xFFFFFFFF) as [_ | Hbig]; [| lia].
  cbn [SetTimestamp with_Timestamp Nonce]. rewrite Hb.
  destruct (negb (bytes_Compare (ShakeSum256 32 (bytes ++ Uint32toB j))
                                (UnpackAsBytes packed) =? 1)) eqn:Htest.
  - apply (mining_test bytes packed j Hp) in Htest.
    exfalso. apply (Hnone j); [lia | exact Htest].
  - destruct fuel as [| fuel']; [reflexivity |].
    assert (Hwrap : u32 (j + 1) = j + 1) by (apply Z.mod_small; lia).
    rewrite Hwrap. apply (IH d (j + 1)); try lia.
    + reflexivity.
    + intros i Hi. apply Hnone. lia.
Qed.

End MinerTheorems.




(** C7.  A candidate with data whose target is zero or above [0x1dffffff]
  makes [Start] panic with the error of [inputTarget], before the loop
  and whatever the fuel: the error is not returned to the caller. *)
Theorem Start_panics_on_rejected_target {E : Externals}
      (fuel : nat) (m : Miner.t) (b : Block) (bytes : list byte) :
ParseBlockToBytes b = Some bytes ->
PackedTarget b = 0 \/ 0x1dffffff < PackedTarget b ->
Miner.Start fuel m b
= Some (Panic (if PackedTarget b =? 0
               then Miner.zero_target_error
               else Miner.large_target_error)).
Proof.
intros Hbytes Htarget. unfold Miner.Start, Miner.inputTarget.
cbn [Miner.inputBlockBytes]. rewrite Hbytes.
destruct (Z.eqb_spec (PackedTarget b) 0) as [E0 | Hnz]; [reflexivity |].
destruct (Z.ltb_spec 0x1dffffff (PackedTarget b)) as [Hbig | Hsmall]; [reflexivity |].
lia.
Qed.

Lemma Start_panics_on_rejected_target_witness :
ParseBlockToBytes (Externals := Sample.small_env) Sample.candidate_zero_target = Some [] /\
(PackedTarget Sample.candidate_zero_target = 0 \/
 0x1dffffff < PackedTarget Sample.candidate_zero_target) /\
Miner.Start (E := Sample.small_env) 0 Sample.idle_miner Sample.candidate_zero_target
= Some (Panic Miner.zero_target_error).
Proof.
split; [reflexivity |].
split; [left; reflexivity |].
apply (Start_panics_on_rejected_target (E := Sample.small_env) 0
         Sample.idle_miner Sample.candidate_zero_target []).
- reflexivity.
- left; reflexivity.
Defined.

(** The same for a target above the bound. *)
Example Start_panics_on_large_target :
Miner.Start (E := Sample.small_env) 5 Sample.idle_miner Sample.candidate_large_target
= Some (Panic Miner.large_target_error).
Proof. reflexivity. Qed.

(** A candidate without data gets the error returned, the path that the
  rejected target does not take. *)
Lemma Start_returns_error_without_data {E : Externals}
    (fuel : nat) (m : Miner.t) (b : Block) :
ParseBlockToBytes b = None ->
Miner.Start fuel m b = Some (Ok (b, Some Miner.no_data_error)).
Proof.
intros Hbytes. unfold Miner.Start. cbn [Miner.inputBlockBytes].
rewrite Hbytes. reflexivity.
Qed.

(** C8.  For a candidate with data and an accepted target that no 32-bit
  nonce solves, [Start] has not returned after any number of iterations:
  the nonce wraps to 0 after [0xFFFFFFFF] and the search starts over; the
  exhaustion error is never produced. *)
Theorem Start_spins_without_solution {E : Externals}
      (m : Miner.t) (b : Block) (bytes : list byte) :
ParseBlockToBytes b = Some bytes ->
0 < PackedTarget b <= 0x1dffffff ->
(forall i, 0 <= i < 2 ^ 32 -> ~ Miner.solves bytes (PackedTarget b) i) ->
forall fuel, Miner.Start fuel m b = None.
Proof.
intros Hbytes Htarget Hnone fuel.
rewrite (Start_enters_loop fuel m b bytes Hbytes Htarget).
apply mining_loop_spins; [lia | exact Hnone |].
cbn. lia.
Qed.

Lemma Start_spins_without_solution_witness :
ParseBlockToBytes (Externals := Sample.high_env) Sample.candidate = Some [] /\
0 < PackedTarget Sample.candidate <= 0x1dffffff /\
(forall i, 0 <= i < 2 ^ 32 ->
   ~ Miner.solves (E := Sample.high_env) [] (PackedTarget Sample.candidate) i) /\
forall fuel,
  Miner.Start (E := Sample.high_env) fuel Sample.idle_miner Sample.candidate = None.
Proof.
assert (Hnone : forall i, 0 <= i < 2 ^ 32 ->
          ~ Miner.solves (E := Sample.high_env) [] (PackedTarget Sample.candidate) i).
{ intros i _ Hsol. unfold Miner.solves in Hsol. cbn [ShakeSum256 Sample.high_env
    Sample.collaborators Sample.high_hash] in Hsol.
  vm_compute in Hsol. apply Hsol. reflexivity. }
split; [reflexivity |].
split; [vm_compute; intuition congruence |].
split; [exact Hnone |].
apply (Start_spins_without_solution (E := Sample.high_env)
         Sample.idle_miner Sample.candidate []).
- reflexivity.
- vm_compute; intuition congruence.
- exact Hnone.
Defined.

(** Whatever the candidate, the exhaustion error is not among the results
  of [Start]. *)
Lemma Start_never_exhausts {E : Externals}
    (fuel : nat) (m : Miner.t) (b b' : Block) :
Miner.Start fuel m b <> Some (Ok (b', Some Miner.exhausted_error)).
Proof.
unfold Miner.Start. cbn [Miner.inputBlockBytes].
destruct (ParseBlockToBytes b) as [bytes |]; [| discriminate].
destruct (Miner.inputTarget _ (PackedTarget b)) as [m' [err |]]; [discriminate |].
apply mining_loop_never_exhausts. cbn. lia.
Qed.

(** Conversely, a block that [Start] returns without error carries the
    least solving nonce, reached within the fuel. *)
Lemma Start_success_is_first_solution {E : Externals}
      (fuel : nat) (m : Miner.t) (b b' : Block) :
  0 <= PackedTarget b < 2 ^ 32 ->
  Miner.Start fuel m b = Some (Ok (b', None)) ->
  exists bytes n0,
    ParseBlockToBytes b = Some bytes /\
    0 <= n0 < 2 ^ 32 /\ (Z.to_nat n0 < fuel)%nat /\
    Miner.solves bytes (PackedTarget b) n0 /\
    (forall j, 0 <= j < n0 -> ~ Miner.solves bytes (PackedTarget b) j) /\
    b' = Miner.solved b bytes (Z.to_nat n0) n0.
Proof.
  intros Hu32 Hrun.
  destruct (ParseBlockToBytes b) as [bytes |] eqn:Hbytes.
  2: { unfold Miner.Start in Hrun. cbn [Miner.inputBlockBytes] in Hrun.
       rewrite Hbytes in Hrun. discriminate. }
  assert (Htarget : 0 < PackedTarget b <= 0x1dffffff).
  { unfold Miner.Start, Miner.inputTarget in Hrun.
    cbn [Miner.inputBlockBytes] in Hrun. rewrite Hbytes in Hrun.
    destruct (Z.eqb_spec (PackedTarget b) 0) as [E0 | Hnz]; [discriminate |].
    destruct (Z.ltb_spec 0x1dffffff (PackedTarget b)) as [Hbig | Hsmall];
      [discriminate | lia]. }
  rewrite (Start_enters_loop fuel m b bytes Hbytes Htarget) in Hrun.
  exists bytes.
  destruct (bounded_search (Miner.solves bytes (PackedTarget b))
                           (solves_dec bytes (PackedTarget b)) (Z.to_nat (2 ^ 32)))
    as [Hnone | [n0 [Hn0 [Hsol Hleast]]]]; rewrite Z2Nat.id in * by lia.
  - rewrite (mining_loop_spins bytes (PackedTarget b)) in Hrun;
      [discriminate | lia | exact Hnone | cbn; lia].
  - exists n0.
    assert (Hbelow : forall i, 0 <= i < 0 + Z.of_nat (Z.to_nat n0) ->
                               ~ Miner.solves bytes (PackedTarget b) i).
    { intros i Hi. apply Hleast. lia. }
    destruct (Nat.lt_ge_cases (Z.to_nat n0) fuel) as [Hfuel | Hfuel].
    + assert (Hsol' : Miner.solves bytes (PackedTarget b) (0 + Z.of_nat (Z.to_nat n0))).
      { rewrite Z.add_0_l, Z2Nat.id by lia. exact Hsol. }
      pose proof (mining_loop_finds bytes (PackedTarget b) (Z.to_nat n0)
                    (proj1 Hu32) 0 0%nat (with_Nonce b 0) fuel
                    (Z.le_refl 0) ltac:(lia) eq_refl Hbelow Hsol' Hfuel) as Hfind.
      rewrite Hfind in Hrun. injection Hrun as <-.
      rewrite Z2Nat.id by lia.
      repeat split; try lia; assumption.
    + pose proof (mining_loop_short bytes (PackedTarget b) (proj1 Hu32)
                    fuel (Z.to_nat n0) 0 0%nat (with_Nonce b 0)
                    (Z.le_refl 0) ltac:(lia) eq_refl Hbelow Hfuel) as Hshort.
      rewrite Hshort in Hrun. discriminate.
Qed.

(** ** Account scans *)

Lemma u64_range (x : Z) : 0 <= u64 x < 2 ^ 64.
Proof. apply Z.mod_pos_bound. lia. Qed.

Lemma u64_small (x : Z) : 0 <= x < 2 ^ 64 -> u64 x = x.
Proof. intros Hx. apply Z.mod_small. exact Hx. Qed.

Lemma u64_add_l (x y : Z) : u64 (u64 x + y) = u64 (x + y).
Proof. unfold u64. apply Zplus_mod_idemp_l. Qed.

(** The inner loop adds the received values, modulo [2^64]. *)
Lemma received_sum (pubKey : string) (txs : list LuTx) (balance : Z) :
0 <= balance < 2 ^ 64 ->
Wallet.received pubKey txs balance
= u64 (balance + Wallet.received_total pubKey txs).
Proof.
unfold Wallet.received. revert balance.
induction txs as [| tx txs IH]; intros balance Hb.
- cbn. rewrite Z.add_0_r, u64_small by exact Hb. reflexivity.
- cbn [fold_left Wallet.received_total fold_right].
  destruct (String.eqb (TxTo tx) pubKey).
  + rewrite IH by apply u64_range. rewrite u64_add_l.
    fold (Wallet.received_total pubKey txs). f_equal; lia.
  + rewrite IH by exact Hb.
    fold (Wallet.received_total pubKey txs). f_equal; lia.
Qed.

(** Below the 64th halving [GetBlockReward] returns the reward of the
  schedule. *)
Lemma GetBlockReward_reward_of (h : Z) :
0 <= h < 525600 * 64 -> Blockchain.GetBlockReward h = Ok (Wallet.reward_of h).
Proof.
intros Hh. unfold Wallet.reward_of.
assert (Hk : 0 <= h / 525600 < 64).
{ split; [apply Z.div_pos; lia | apply Z.div_lt_upper_bound; lia]. }
destruct (Z.eqb_spec (h / 525600) 0) as [E0 | Hnz].
- unfold Blockchain.GetBlockReward. rewrite E0. reflexivity.
- apply GetBlockReward_halved; lia.
Qed.

Lemma int_of_uint_small (x : Z) : 0 <= x < 2 ^ 63 -> int_of_uint x = x.
Proof.
intros Hx. unfold int_of_uint.
destruct (Z.ltb_spec x (2 ^ 63)); [reflexivity | lia].
Qed.

(** The outer loop from position [index]: the blocks left are credited as
  in the account view, with a reward counted when [index + 10] is below
  the height, that is with at least 11 blocks on top. *)
Lemma scan_balance_credit (pubKey : string) (len : Z) :
1 <= len <= 525600 * 64 + 11 ->
forall (blocks : list Block) (index balance : Z),
  0 <= index -> index + Z.of_nat (length blocks) = len ->
  0 <= balance < 2 ^ 64 ->
  Wallet.scan_balance pubKey (len - 1) blocks index balance
  = Ok (u64 (balance + Wallet.account_credit 11 pubKey len blocks index)).
Proof.
intros Hlen. induction blocks as [| blk rest IH]; intros index balance Hi Hrest Hb.
- cbn. rewrite Z.add_0_r, u64_small by exact Hb. reflexivity.
- cbn [length] in Hrest. cbn [Wallet.scan_balance Wallet.account_credit].
  rewrite int_of_uint_small by lia. unfold Wallet.blocks_on_top.
  destruct (String.eqb (Miner blk) pubKey); cbn [andb].
  + destruct (Z.ltb_spec (index + 10) (len - 1)) as [Hdeep | Hshallow];
      destruct (Z.leb_spec 11 (len - 1 - index)) as [Hdeep' | Hshallow']; try lia.
    * assert (Hu : u32 index = index) by (apply Z.mod_small; lia).
      rewrite Hu, GetBlockReward_reward_of by lia. cbn [bind].
      rewrite received_sum by apply u64_range.
      rewrite IH; try lia; [| apply u64_range].
      rewrite u64_add_l, <- Z.add_assoc, u64_add_l. f_equal. f_equal. ring.
    * cbn [bind]. rewrite received_sum by exact Hb.
      rewrite IH; try lia; [| apply u64_range].
      rewrite u64_add_l. f_equal. f_equal. ring.
  + cbn [bind]. rewrite received_sum by exact Hb.
    rewrite IH; try lia; [| apply u64_range].
    rewrite u64_add_l. f_equal. f_equal. ring.
Qed.

(** Up to the 64th halving, [ScanChainForBalance] returns the account view
  with a maturity depth of 11 blocks, modulo [2^64]. *)
Lemma ScanChainForBalance_credit (chain : Blockchain) (pubKey : string) :
Z.of_nat (length (Blocks chain)) <= 525600 * 64 + 11 ->
Wallet.ScanChainForBalance chain pubKey
= Ok (u64 (Wallet.derived_balance 11 chain pubKey)).
Proof.
intros Hlen. unfold Wallet.ScanChainForBalance, Wallet.derived_balance.
destruct (Blocks chain) as [| blk rest] eqn:Hblocks.
- reflexivity.
- unfold Blockchain.GetHeight. rewrite Hblocks.
  rewrite uint_small by (cbn [length] in *; lia).
  rewrite scan_balance_credit; cbn [length] in *; try lia.
  reflexivity.
Qed.

(** C4.  A block mined by "miner" with exactly 10 blocks on top of it: the
  account view of the specification credits its reward, the scan does
  not; with 11 blocks on top the scan credits it. *)
Theorem ScanChainForBalance_ten_blocks_on_top :
Wallet.blocks_on_top (Z.of_nat (length (Blocks (Sample.buried 10)))) 0 = 10 /\
Wallet.derived_balance 10 (Sample.buried 10) "miner" = 200000000 /\
Wallet.ScanChainForBalance (Sample.buried 10) "miner" = Ok 0 /\
Wallet.ScanChainForBalance (Sample.buried 11) "miner" = Ok 200000000.
Proof. vm_compute. repeat split; reflexivity. Qed.

(** A chain short of the 64th halving always yields a balance. *)
Lemma ScanChainForBalance_returns (chain : Blockchain) (pubKey : string) :
Z.of_nat (length (Blocks chain)) <= 525600 * 64 + 11 ->
exists balance,
  Wallet.ScanChainForBalance chain pubKey = Ok balance /\ 0 <= balance < 2 ^ 64.
Proof.
intros Hlen. eexists. split; [apply ScanChainForBalance_credit; exact Hlen |].
apply u64_range.
Qed.

(** ** Transaction validation *)

Section VerifyTxTheorems.
Context {E : Externals}.

(** The balance rule rejects exactly when the balance differs from
    [value + fee] (as [uint64]s): the difference is then not zero, hence
    above zero. *)
Lemma VerifyTx_balance_differs (chain : Blockchain) (tx : LuTx) (balance : Z) :
  Wallet.ScanChainForBalance chain (TxFrom tx) = Ok balance ->
  u64 (balance - u64 (Value tx + Fee tx)) <> 0 ->
  Wallet.VerifyTx chain tx = Ok false.
Proof.
  intros Hscan Hdiff. unfold Wallet.VerifyTx. rewrite Hscan. cbn [bind].
  pose proof (u64_range (balance - u64 (Value tx + Fee tx))) as Hr.
  destruct (Z.ltb_spec 0 (u64 (balance - u64 (Value tx + Fee tx)))) as [_ | Hle];
    [reflexivity | lia].
Qed.

(** The part of the rule that works: a balance below [value + fee] is
    rejected. *)
Lemma VerifyTx_rejects_overdraft (chain : Blockchain) (tx : LuTx) (balance : Z) :
  Wallet.ScanChainForBalance chain (TxFrom tx) = Ok balance ->
  0 <= balance < Value tx + Fee tx -> Value tx + Fee tx < 2 ^ 64 ->
  Wallet.VerifyTx chain tx = Ok false.
Proof.
  intros Hscan Hlow Hfit. apply (VerifyTx_balance_differs chain tx balance Hscan).
  rewrite (u64_small (Value tx + Fee tx)) by lia.
  unfold u64.
  replace (balance - (Value tx + Fee tx))
    with (balance - (Value tx + Fee tx) + 2 ^ 64 + (-1) * 2 ^ 64) by ring.
  rewrite Z.mod_add by lia. rewrite Z.mod_small by lia. lia.
Qed.

(** A transaction is accepted only if the balance equals [value + fee]. *)
Lemma VerifyTx_accepts_exact_balance_only
      (chain : Blockchain) (tx : LuTx) (balance : Z) :
  Wallet.ScanChainForBalance chain (TxFrom tx) = Ok balance ->
  0 <= balance < 2 ^ 64 ->
  Wallet.VerifyTx chain tx = Ok true ->
  balance = u64 (Value tx + Fee tx).
Proof.
  intros Hscan Hb Hok.
  destruct (Z.eq_dec (u64 (balance - u64 (Value tx + Fee tx))) 0) as [Hz | Hnz].
  - pose proof (u64_range (Value tx + Fee tx)) as Hs.
    unfold u64 in Hz at 1. apply Z.mod_divide in Hz; [| lia].
    destruct Hz as [q Hq]. nia.
  - rewrite (VerifyTx_balance_differs chain tx balance Hscan Hnz) in Hok.
    discriminate.
Qed.

Lemma VerifyTx_wrong_nonce_not_accepted (chain : Blockchain) (tx : LuTx) :
  TxNonce tx <> Wallet.ScanChainForNonce chain (TxFrom tx) ->
  Wallet.VerifyTx chain tx <> Ok true.
Proof.
  intros Hnonce. unfold Wallet.VerifyTx.
  destruct (Wallet.ScanChainForBalance chain (TxFrom tx)) as [balance | msg];
    [| discriminate].
  cbn [bind]. destruct (0 <? _); [discriminate |].
  destruct (Z.eqb_spec (TxNonce tx) (Wallet.ScanChainForNonce chain (TxFrom tx)))
    as [Heq | _]; [contradiction | discriminate].
Qed.

End VerifyTxTheorems.

(** C1.  A sender whose derived balance covers [value + fee] with something
    to spare is rejected by the balance rule of [VerifyTx]: the unsigned
    difference [balance - (value + fee)] is above zero.  The rule lets a
    transaction through only when the balance equals [value + fee]. *)
Theorem VerifyTx_rejects_covered_spend {E : Externals}
        (chain : Blockchain) (tx : LuTx) (balance : Z) :
  Wallet.ScanChainForBalance chain (TxFrom tx) = Ok balance ->
  0 <= Value tx -> 0 <= Fee tx ->
  Value tx + Fee tx < balance < 2 ^ 64 ->
  Wallet.VerifyTx chain tx = Ok false.
Proof.
  intros Hscan Hv Hf Hcover.
  apply (VerifyTx_balance_differs chain tx balance Hscan).
  rewrite (u64_small (Value tx + Fee tx)) by lia.
  rewrite u64_small by lia. lia.
Qed.

Lemma VerifyTx_rejects_covered_spend_witness :
  Wallet.ScanChainForBalance Sample.funded_chain (TxFrom Sample.covered_spend) = Ok 100 /\
  0 <= Value Sample.covered_spend /\ 0 <= Fee Sample.covered_spend /\
  Value Sample.covered_spend + Fee Sample.covered_spend < 100 < 2 ^ 64 /\
  Wallet.VerifyTx (E := Sample.small_env) Sample.funded_chain Sample.covered_spend
  = Ok false.
Proof.
  split; [reflexivity |].
  split; [vm_compute; congruence |].
  split; [vm_compute; congruence |].
  split; [vm_compute; intuition congruence |].
  apply (VerifyTx_rejects_covered_spend (E := Sample.small_env)
           Sample.funded_chain Sample.covered_spend 100).
  - reflexivity.
  - vm_compute; congruence.
  - vm_compute; congruence.
  - vm_compute; intuition congruence.
Defined.

(** On the sample ledger: the covered spend is rejected, the spend of the
    exact balance is accepted, the overdraft is rejected. *)
Example VerifyTx_on_funded_chain :
  Wallet.VerifyTx (E := Sample.small_env) Sample.funded_chain Sample.covered_spend = Ok false /\
  Wallet.VerifyTx (E := Sample.small_env) Sample.funded_chain Sample.exact_spend = Ok true /\
  Wallet.VerifyTx (E := Sample.small_env) Sample.funded_chain Sample.overdraft = Ok false.
Proof. vm_compute. repeat split; reflexivity. Qed.

(** With the balance scan returning, a transaction whose nonce is not the
    sender's derived transaction count gets false from [VerifyTx], at the
    balance rule or at the nonce rule. *)
Lemma VerifyTx_rejects_wrong_nonce_when_scanned {E : Externals}
      (chain : Blockchain) (tx : LuTx) (balance : Z) :
  Wallet.ScanChainForBalance chain (TxFrom tx) = Ok balance ->
  TxNonce tx <> Wallet.ScanChainForNonce chain (TxFrom tx) ->
  Wallet.VerifyTx chain tx = Ok false.
Proof.
  intros Hscan Hnonce. unfold Wallet.VerifyTx. rewrite Hscan. cbn [bind].
  destruct (0 <? _); [reflexivity |].
  destruct (Z.eqb_spec (TxNonce tx) (Wallet.ScanChainForNonce chain (TxFrom tx)))
    as [Heq | _]; [contradiction | reflexivity].
Qed.

(** So it does on every ledger short of the 64th halving. *)
Lemma VerifyTx_rejects_wrong_nonce_before_64_halvings {E : Externals}
      (chain : Blockchain) (tx : LuTx) :
  Z.of_nat (length (Blocks chain)) <= 525600 * 64 + 11 ->
  TxNonce tx <> Wallet.ScanChainForNonce chain (TxFrom tx) ->
  Wallet.VerifyTx chain tx = Ok false.
Proof.
  intros Hlen Hnonce.
  destruct (ScanChainForBalance_returns chain (TxFrom tx) Hlen) as [balance [Hscan _]].
  apply (VerifyTx_rejects_wrong_nonce_when_scanned chain tx balance Hscan Hnonce).
Qed.

Example VerifyTx_rejects_replayed_spend :
  TxNonce Sample.replayed_spend
  <> Wallet.ScanChainForNonce Sample.funded_chain (TxFrom Sample.replayed_spend) /\
  Wallet.VerifyTx (E := Sample.small_env) Sample.funded_chain Sample.replayed_spend
  = Ok false.
Proof. split; [vm_compute; congruence | reflexivity]. Qed.

(** The derived count is the number of transactions sent by the key, as a
    [uint32]. *)
Lemma sent_count (pubKey : string) (txs : list LuTx) (nonce : Z) :
  0 <= nonce < 2 ^ 32 ->
  Wallet.sent pubKey txs nonce
  = u32 (nonce + Z.of_nat (length (filter (fun tx => String.eqb (TxFrom tx) pubKey) txs))).
Proof.
  unfold Wallet.sent. revert nonce.
  induction txs as [| tx txs IH]; intros nonce Hn.
  - cbn. rewrite Z.add_0_r. symmetry. apply Z.mod_small. exact Hn.
  - cbn [fold_left filter]. destruct (String.eqb (TxFrom tx) pubKey).
    + rewrite IH by (apply Z.mod_pos_bound; lia).
      cbn [length]. unfold u32. rewrite Zplus_mod_idemp_l. f_equal. lia.
    + apply IH. exact Hn.
Qed.

Lemma ScanChainForNonce_count (chain : Blockchain) (pubKey : string) :
  Wallet.ScanChainForNonce chain pubKey
  = u32 (Z.of_nat (length (filter (fun tx => String.eqb (TxFrom tx) pubKey)
                                  (flat_map Txs (Blocks chain))))).
Proof.
  unfold Wallet.ScanChainForNonce.
  assert (Hgen : forall blocks nonce, 0 <= nonce < 2 ^ 32 ->
            fold_left (fun nonce blk => Wallet.sent pubKey (Txs blk) nonce) blocks nonce
            = u32 (nonce + Z.of_nat (length (filter (fun tx => String.eqb (TxFrom tx) pubKey)
                                                    (flat_map Txs blocks))))).
  { induction blocks as [| blk rest IH]; intros nonce Hn.
    - cbn. rewrite Z.add_0_r. symmetry. apply Z.mod_small. exact Hn.
    - cbn [fold_left flat_map]. rewrite IH by (rewrite sent_count by exact Hn;
                                               apply Z.mod_pos_bound; lia).
      rewrite sent_count by exact Hn.
      rewrite filter_app, length_app, Nat2Z.inj_add.
      unfold u32. rewrite Zplus_mod_idemp_l. f_equal. lia. }
  rewrite Hgen by lia. reflexivity.
Qed.

(** ** Block validation *)

Lemma RemoveTx_incl (txs : list LuTx) (i : nat) (tx : LuTx) :
  In tx (RemoveTx txs i) -> In tx txs.
Proof.
  unfold RemoveTx. revert txs.
  induction i as [| i IH]; intros [| t txs] Hin; cbn in *; try contradiction.
  - right. exact Hin.
  - destruct Hin as [Heq | Hin]; [left; exact Heq | right; apply IH; exact Hin].
Qed.

Section VerifyBlockTheorems.
Context {E : Externals}.

(** The transaction loop only ever drops transactions, and returns as
    long as [VerifyTx] does. *)
Lemma check_txs_incl (chain : Blockchain) (fuel : nat) :
  forall (txs : list LuTx) (i : nat) (txs' : list LuTx),
    Wallet.check_txs fuel chain txs i = Ok txs' ->
    forall tx, In tx txs' -> In tx txs.
Proof.
  induction fuel as [| fuel IH]; intros txs i txs' Hrun tx Hin.
  - cbn in Hrun. injection Hrun as <-. exact Hin.
  - cbn [Wallet.check_txs] in Hrun.
    destruct (nth_error txs i) as [t |]; [| injection Hrun as <-; exact Hin].
    destruct (Wallet.VerifyTx chain t) as [[|] | msg]; cbn in Hrun; try discriminate.
    + apply (IH _ _ _ Hrun). exact Hin.
    + apply (RemoveTx_incl txs i). apply (IH _ _ _ Hrun). exact Hin.
Qed.

Lemma check_txs_returns (chain : Blockchain) (fuel : nat) :
  forall (txs : list LuTx) (i : nat),
    (forall tx, In tx txs -> exists valid, Wallet.VerifyTx chain tx = Ok valid) ->
    exists txs', Wallet.check_txs fuel chain txs i = Ok txs'.
Proof.
  induction fuel as [| fuel IH]; intros txs i Hall.
  - exists txs. reflexivity.
  - cbn [Wallet.check_txs].
    destruct (nth_error txs i) as [t |] eqn:Hnth; [| exists txs; reflexivity].
    destruct (Hall t (nth_error_In _ _ Hnth)) as [valid Hv]. rewrite Hv. cbn [bind].
    destruct valid; cbn [negb].
    + apply IH. exact Hall.
    + apply IH. intros tx Hin. apply Hall. apply (RemoveTx_incl txs i). exact Hin.
Qed.

(** Once the header rules hold, [VerifyBlock] is the transaction loop
    followed by acceptance. *)
Lemma VerifyBlock_after_header (chain : Blockchain) (block : Block) (check : bool) :
  Wallet.header_rules_pass chain block check ->
  Wallet.VerifyBlock chain block check
  = (txs <- Wallet.check_txs (length (Txs block)) chain (Txs block) 0 ;;
     Ok (true, with_Txs block txs)).
Proof.
  intros [Hlen [Hver [Hhash [[tip [Htip [Hprev Htime]]] [Htarget Hmerkle]]]]].
  unfold Wallet.VerifyBlock.
  destruct (Z.eqb_spec (Z.of_nat (length (Blocks chain))) 1) as [E1 | _];
    [contradiction |].
  assert (Hv : check && negb (String.eqb (BlockSoftwareVersion block) SoftwareVersion)
               = false).
  { destruct check; [| reflexivity].
    rewrite (Hver eq_refl), String.eqb_refl. reflexivity. }
  rewrite Hv. cbv zeta. rewrite Hhash, String.eqb_refl. cbn [negb].
  rewrite Htip. cbn [bind]. rewrite Hprev, String.eqb_refl. cbn [negb].
  destruct (Z.ltb_spec (Timestamp block) (Timestamp tip)) as [Hearly | _]; [lia |].
  destruct (Z.ltb_spec (CurrentUnix 0) (Timestamp block)) as [Hlate | _]; [lia |].
  cbn [orb]. rewrite Htarget. cbn [bind]. rewrite Z.eqb_refl. cbn [negb].
  rewrite <- Hmerkle, String.eqb_refl. cbn [negb]. reflexivity.
Qed.

(** The part of the policy that holds: past the header rules the block
    is accepted whatever its transactions, with a list drawn from the
    original one. *)
Lemma VerifyBlock_accepts_after_header
      (chain : Blockchain) (block : Block) (check : bool) :
  Wallet.header_rules_pass chain block check ->
  (forall tx, In tx (Txs block) -> exists valid, Wallet.VerifyTx chain tx = Ok valid) ->
  exists txs',
    Wallet.VerifyBlock chain block check = Ok (true, with_Txs block txs') /\
    forall tx, In tx txs' -> In tx (Txs block).
Proof.
  intros Hrules Hall. rewrite (VerifyBlock_after_header chain block check Hrules).
  destruct (check_txs_returns chain (length (Txs block)) (Txs block) 0 Hall)
    as [txs' Hrun].
  exists txs'. rewrite Hrun. split; [reflexivity |].
  apply (check_txs_incl chain _ _ _ _ Hrun).
Qed.

End VerifyBlockTheorems.

(** C3.  A block that passes the header rules and carries two transactions
    that both fail [VerifyTx] is accepted with the second one still in its
    list: removing the first moves the second down to the index the loop
    has just left, and the loop never checks it. *)
Theorem VerifyBlock_keeps_failing_tx {E : Externals}
        (chain : Blockchain) (block : Block) (check : bool) (t1 t2 : LuTx) :
  Wallet.header_rules_pass chain block check ->
  Txs block = [t1; t2] ->
  Wallet.VerifyTx chain t1 = Ok false ->
  Wallet.VerifyTx chain t2 = Ok false ->
  Wallet.VerifyBlock chain block check = Ok (true, with_Txs block [t2]).
Proof.
  intros Hrules Htxs H1 H2.
  rewrite (VerifyBlock_after_header chain block check Hrules).
  rewrite Htxs. cbn [length Wallet.check_txs nth_error].
  rewrite H1. cbn [bind negb RemoveTx firstn skipn app nth_error]. reflexivity.
Qed.

Lemma third_block_passes_header :
  Wallet.header_rules_pass (E := Sample.small_env) Sample.funded_chain Sample.third_block true.
Proof.
  unfold Wallet.header_rules_pass.
  split; [vm_compute; congruence |].
  split; [intros _; reflexivity |].
  split; [vm_compute; reflexivity |].
  split.
  - exists Sample.second_block.
    split; [reflexivity |]. split; [reflexivity |].
    vm_compute. intuition congruence.
  - split; vm_compute; reflexivity.
Defined.

Lemma VerifyBlock_keeps_failing_tx_witness :
  Wallet.header_rules_pass (E := Sample.small_env) Sample.funded_chain Sample.third_block true /\
  Txs Sample.third_block = [Sample.overdraft; Sample.second_overdraft] /\
  Wallet.VerifyTx (E := Sample.small_env) Sample.funded_chain Sample.overdraft = Ok false /\
  Wallet.VerifyTx (E := Sample.small_env) Sample.funded_chain Sample.second_overdraft
  = Ok false /\
  Wallet.VerifyBlock (E := Sample.small_env) Sample.funded_chain Sample.third_block true
  = Ok (true, with_Txs Sample.third_block [Sample.second_overdraft]).
Proof.
  split; [exact third_block_passes_header |].
  split; [reflexivity |].
  split; [reflexivity |].
  split; [reflexivity |].
  apply (VerifyBlock_keeps_failing_tx (E := Sample.small_env)
           Sample.funded_chain Sample.third_block true
           Sample.overdraft Sample.second_overdraft).
  - exact third_block_passes_header.
  - reflexivity.
  - reflexivity.
  - reflexivity.
Defined.

(** ** Validation beyond the 64th halving *)

Lemma GetBlockReward_panic_message (h : Z) (msg : string) :
  Blockchain.GetBlockReward h = Panic msg -> msg = divide_by_zero.
Proof.
  unfold Blockchain.GetBlockReward.
  destruct (h / 525600 =? 0); [discriminate |].
  cbv zeta. destruct (u64 _ =? 0); [| discriminate].
  intros Heq. injection Heq as <-. reflexivity.
Qed.

(** A block mined by the key at a position from the 64th halving on, deep
    enough for its reward to count, stops the balance scan. *)
Lemma scan_balance_panics (pubKey : string) (h : Z) :
  forall (blocks : list Block) (index balance : Z) (n : nat) (blk : Block),
    0 <= index ->
    nth_error blocks n = Some blk -> Miner blk = pubKey ->
    index + Z.of_nat n + 10 < int_of_uint h ->
    525600 * 64 <= index + Z.of_nat n < 2 ^ 32 ->
    Wallet.scan_balance pubKey h blocks index balance = Panic divide_by_zero.
Proof.
  induction blocks as [| b0 rest IH]; intros index balance n blk Hi Hnth Hminer Hdeep Hold.
  - destruct n; discriminate.
  - destruct n as [| n].
    + injection Hnth as ->. rewrite Nat2Z.inj_0, Z.add_0_r in *.
      cbn [Wallet.scan_balance]. rewrite Hminer, String.eqb_refl. cbn [andb].
      destruct (Z.ltb_spec (index + 10) (int_of_uint h)) as [_ | Hge]; [| lia].
      assert (Hu : u32 index = index) by (apply Z.mod_small; lia).
      rewrite Hu, GetBlockReward_panics; [reflexivity | lia |].
      apply Z.div_le_lower_bound; lia.
    + cbn [nth_error] in Hnth. cbn [Wallet.scan_balance].
      assert (Hnext : forall balance',
                Wallet.scan_balance pubKey h rest (index + 1) balance'
                = Panic divide_by_zero).
      { intros balance'. apply (IH (index + 1) balance' n blk); try assumption; lia. }
      destruct (String.eqb (Miner b0) pubKey && (index + 10 <? int_of_uint h)).
      * destruct (Blockchain.GetBlockReward (u32 index)) as [reward | msg] eqn:Hreward.
        -- cbn [bind]. apply Hnext.
        -- cbn [bind]. rewrite (GetBlockReward_panic_message _ _ Hreward). reflexivity.
      * cbn [bind]. apply Hnext.
Qed.

Lemma flat_map_Txs_repeat (blk : Block) (n : nat) :
  Txs blk = [] -> flat_map Txs (repeat blk n) = [].
Proof.
  intros Hempty. induction n as [| n IH]; [reflexivity |].
  cbn [repeat flat_map]. rewrite Hempty, IH. reflexivity.
Qed.

Lemma old_chain_scan_panics :
  Wallet.ScanChainForBalance Sample.old_chain "alice" = Panic divide_by_zero.
Proof.
  unfold Wallet.ScanChainForBalance.
  apply (scan_balance_panics "alice" (Blockchain.GetHeight Sample.old_chain)
           (Blocks Sample.old_chain) 0 0 (Z.to_nat 33638400) Sample.old_block).
  - lia.
  - unfold Sample.old_chain. cbn [Blocks]. apply nth_error_repeat. lia.
  - reflexivity.
  - unfold Blockchain.GetHeight, Sample.old_chain. cbn [Blocks].
    rewrite repeat_length, Z2Nat.id by lia.
    rewrite uint_small by lia. rewrite int_of_uint_small by lia. lia.
  - lia.
Qed.

(** C9.  On a ledger that has passed the 64th halving, with a block mined
    by the sender from that height on and 11 blocks on top of it, a
    transaction whose nonce is not the sender's derived count does not get
    false from [VerifyTx]: the balance scan, which comes first, divides by
    zero in [GetBlockReward]. *)
Theorem VerifyTx_wrong_nonce_on_old_ledger :
  TxNonce Sample.replayed_spend
  <> Wallet.ScanChainForNonce Sample.old_chain (TxFrom Sample.replayed_spend) /\
  Wallet.VerifyTx (E := Sample.small_env) Sample.old_chain Sample.replayed_spend
  = Panic divide_by_zero.
Proof.
  split.
  - rewrite ScanChainForNonce_count. unfold Sample.old_chain. cbn [Blocks].
    rewrite flat_map_Txs_repeat by reflexivity. cbn. discriminate.
  - unfold Wallet.VerifyTx.
    change (TxFrom Sample.replayed_spend) with "alice".
    rewrite old_chain_scan_panics. reflexivity.
Qed.

(* ===================================================================== *)
(** * Part III: further properties of the code                            *)
(* ===================================================================== *)

(** ** Appending and removing blocks *)

Lemma GetHeight_AddBlock (b : Blockchain) (block : Block) :
  Z.of_nat (length (Blocks b)) + 1 < 2 ^ 63 ->
  Blockchain.GetHeight (Blockchain.AddBlock b block) = Z.of_nat (length (Blocks b)).
Proof.
  intros Hlen. unfold Blockchain.GetHeight, Blockchain.AddBlock. cbn [Blocks].
  rewrite length_app. cbn [length]. rewrite uint_small by lia. lia.
Qed.

(** X1.  After [AddBlock] the height is the former number of blocks,
    [GetBlock] at that height returns the block just added, and every
    earlier index still returns what it returned before. *)
Theorem AddBlock_then_GetBlock (b : Blockchain) (block : Block) :
  Z.of_nat (length (Blocks b)) + 1 < 2 ^ 63 ->
  Blockchain.GetHeight (Blockchain.AddBlock b block) = Z.of_nat (length (Blocks b)) /\
  Blockchain.GetBlock (Blockchain.AddBlock b block)
                      (Blockchain.GetHeight (Blockchain.AddBlock b block))
  = Ok (block, true) /\
  (forall n, 0 <= n < Z.of_nat (length (Blocks b)) ->
     Blockchain.GetBlock (Blockchain.AddBlock b block) n = Blockchain.GetBlock b n).
Proof.
  intros Hlen. pose proof (GetHeight_AddBlock b block Hlen) as Hh.
  split; [exact Hh |]. split.
  - unfold Blockchain.GetBlock. rewrite Hh, Z.ltb_irrefl.
    unfold index, Blockchain.AddBlock. cbn [Blocks].
    rewrite length_app. cbn [length].
    destruct (Z.ltb_spec (Z.of_nat (length (Blocks b)))
                         (Z.of_nat (length (Blocks b) + 1))) as [_ | Hge]; [| lia].
    rewrite Nat2Z.id, nth_error_app2, Nat.sub_diag by lia. reflexivity.
  - intros n Hn. unfold Blockchain.GetBlock. rewrite Hh.
    assert (Hne : Blocks b <> []) by (destruct (Blocks b); cbn in *; [lia | discriminate]).
    rewrite (GetHeight_nonempty b Hne) by lia.
    destruct (Z.ltb_spec (Z.of_nat (length (Blocks b))) n) as [Hlt | _]; [lia |].
    destruct (Z.ltb_spec (Z.of_nat (length (Blocks b)) - 1) n) as [Hlt | _]; [lia |].
    unfold index, Blockchain.AddBlock. cbn [Blocks].
    rewrite length_app. cbn [length].
    destruct (Z.ltb_spec n (Z.of_nat (length (Blocks b) + 1))) as [_ | Hge]; [| lia].
    destruct (Z.ltb_spec n (Z.of_nat (length (Blocks b)))) as [_ | Hge]; [| lia].
    rewrite nth_error_app1 by lia. reflexivity.
Qed.

Lemma AddBlock_then_GetBlock_witness :
  Z.of_nat (length (Blocks Sample.funded_chain)) + 1 < 2 ^ 63 /\
  Blockchain.GetHeight (Blockchain.AddBlock Sample.funded_chain Sample.third_block) = 2 /\
  Blockchain.GetBlock (Blockchain.AddBlock Sample.funded_chain Sample.third_block)
    (Blockchain.GetHeight (Blockchain.AddBlock Sample.funded_chain Sample.third_block))
  = Ok (Sample.third_block, true).
Proof.
  split; [vm_compute; reflexivity |].
  pose proof (AddBlock_then_GetBlock Sample.funded_chain Sample.third_block) as H.
  destruct H as [Hh [Hget _]]; [vm_compute; reflexivity |].
  split; [exact Hh | exact Hget].
Defined.

(** On a chain with blocks, [RemoveBlock] drops the last one and nothing
    else. *)
Lemma RemoveBlock_nonempty (b : Blockchain) :
  Blocks b <> [] -> Z.of_nat (length (Blocks b)) < 2 ^ 63 ->
  Blockchain.RemoveBlock b
  = Ok (mkBlockchain (removelast (Blocks b)) (Z.of_nat (length (Blocks b)) - 1)).
Proof.
  intros Hne Hlen. unfold Blockchain.RemoveBlock.
  rewrite (GetHeight_nonempty b Hne Hlen).
  assert (Hpos : 1 <= Z.of_nat (length (Blocks b))).
  { destruct (Blocks b); [congruence | cbn [length]; lia]. }
  unfold Blockchain.slice_to, Blockchain.slice_from.
  destruct (Z.leb_spec (Z.of_nat (length (Blocks b)) - 1)
                       (Z.of_nat (length (Blocks b)))) as [_ | Hgt]; [| lia].
  cbn [bind]. rewrite uint_small by lia.
  destruct (Z.leb_spec (Z.of_nat (length (Blocks b)) - 1 + 1)
                       (Z.of_nat (length (Blocks b)))) as [_ | Hgt]; [| lia].
  cbn [bind].
  replace (Z.to_nat (Z.of_nat (length (Blocks b)) - 1 + 1)) with (length (Blocks b)) by lia.
  rewrite skipn_all, app_nil_r.
  replace (Z.to_nat (Z.of_nat (length (Blocks b)) - 1))
    with (Nat.pred (length (Blocks b))) by lia.
  rewrite <- removelast_firstn_len. reflexivity.
Qed.

(** X2.  [RemoveBlock] undoes [AddBlock]: the blocks are those before the
    block was added (the height cache holds the new height). *)
Theorem RemoveBlock_undoes_AddBlock (b : Blockchain) (block : Block) :
  Z.of_nat (length (Blocks b)) + 1 < 2 ^ 63 ->
  Blockchain.RemoveBlock (Blockchain.AddBlock b block)
  = Ok (mkBlockchain (Blocks b) (Z.of_nat (length (Blocks b)))).
Proof.
  intros Hlen. rewrite RemoveBlock_nonempty.
  - unfold Blockchain.AddBlock. cbn [Blocks].
    rewrite removelast_last, length_app. cbn [length]. do 2 f_equal. lia.
  - unfold Blockchain.AddBlock. cbn [Blocks]. destruct (Blocks b); discriminate.
  - unfold Blockchain.AddBlock. cbn [Blocks]. rewrite length_app. cbn [length]. lia.
Qed.

Lemma RemoveBlock_undoes_AddBlock_witness :
  Z.of_nat (length (Blocks Sample.funded_chain)) + 1 < 2 ^ 63 /\
  Blockchain.RemoveBlock (Blockchain.AddBlock Sample.funded_chain Sample.third_block)
  = Ok (mkBlockchain (Blocks Sample.funded_chain) 2).
Proof.
  split; [vm_compute; reflexivity |].
  apply (RemoveBlock_undoes_AddBlock Sample.funded_chain Sample.third_block).
  vm_compute; reflexivity.
Defined.

(** X3.  On a chain without blocks [RemoveBlock] panics: the height is
    computed as [2^64 - 1] and the slice [Blocks[:height]] is out of
    range, whatever the cache holds. *)
Theorem RemoveBlock_empty_panics (cache : Z) :
  Blockchain.RemoveBlock (mkBlockchain [] cache) = Panic Blockchain.slice_out_of_range.
Proof. reflexivity. Qed.

(** ** Retargeting at the edges *)

(** X4.  Block number 0 is a multiple of 10080, so [CalculatePackedTarget]
    reads [Blocks[0 - 1]] with the index wrapped to [2^64 - 1] and panics,
    on every chain. *)
Theorem CalculatePackedTarget_at_zero_panics (b : Blockchain) :
  Z.of_nat (length (Blocks b)) < 2 ^ 63 ->
  Blockchain.CalculatePackedTarget b 0 = Panic index_out_of_range.
Proof.
  intros Hlen. unfold Blockchain.CalculatePackedTarget.
  destruct (Z.ltb_spec (Z.of_nat (length (Blocks b))) 0) as [Hlt | _]; [lia |].
  change (0 mod 10080 =? 0) with true. cbv iota.
  rewrite index_out_of_range_panics; [reflexivity |].
  change (uint (0 - 1)) with (2 ^ 64 - 1). lia.
Qed.

Lemma CalculatePackedTarget_at_zero_panics_witness :
  Z.of_nat (length (Blocks Sample.funded_chain)) < 2 ^ 63 /\
  Blockchain.CalculatePackedTarget Sample.funded_chain 0 = Panic index_out_of_range.
Proof.
  split; [vm_compute; reflexivity |].
  apply (CalculatePackedTarget_at_zero_panics Sample.funded_chain).
  vm_compute; reflexivity.
Defined.

(** X5.  For a block number within the chain that is not a multiple of
    10080, [CalculatePackedTarget] returns the packed target of the block
    before it. *)
Theorem CalculatePackedTarget_off_boundary (b : Blockchain) (blockNumber : Z) (prev : Block) :
  1 <= blockNumber <= Z.of_nat (length (Blocks b)) ->
  Z.of_nat (length (Blocks b)) < 2 ^ 63 ->
  blockNumber mod 10080 <> 0 ->
  nth_error (Blocks b) (Z.to_nat (blockNumber - 1)) = Some prev ->
  Blockchain.CalculatePackedTarget b blockNumber = Ok (PackedTarget prev).
Proof.
  intros Hbn Hlen Hmod Hprev.
  destruct (CalculatePackedTarget_within b blockNumber Hbn Hlen) as [prev' [Hnth [Hoff _]]].
  rewrite Hprev in Hnth. injection Hnth as <-. apply Hoff. exact Hmod.
Qed.

Lemma CalculatePackedTarget_off_boundary_witness :
  1 <= 2 <= Z.of_nat (length (Blocks Sample.funded_chain)) /\
  Z.of_nat (length (Blocks Sample.funded_chain)) < 2 ^ 63 /\
  2 mod 10080 <> 0 /\
  nth_error (Blocks Sample.funded_chain) (Z.to_nat (2 - 1)) = Some Sample.second_block /\
  Blockchain.CalculatePackedTarget Sample.funded_chain 2
  = Ok (PackedTarget Sample.second_block).
Proof.
  split; [vm_compute; intuition congruence |].
  split; [vm_compute; reflexivity |].
  split; [vm_compute; congruence |].
  split; [reflexivity |].
  apply (CalculatePackedTarget_off_boundary Sample.funded_chain 2 Sample.second_block).
  - vm_compute; intuition congruence.
  - vm_compute; reflexivity.
  - vm_compute; congruence.
  - reflexivity.
Defined.

(** X6.  At a boundary with a nonzero elapsed time, [CalculatePackedTarget]
    returns the genesis target when the product of the expanded previous
    target and [604800 / elapsed], in 256 bits, is above the expanded
    genesis target, and the packed product otherwise. *)
Theorem CalculatePackedTarget_on_boundary
        (b : Blockchain) (blockNumber : Z) (prev oldest : Block) :
  1 <= blockNumber <= Z.of_nat (length (Blocks b)) ->
  Z.of_nat (length (Blocks b)) < 2 ^ 63 ->
  blockNumber mod 10080 = 0 ->
  nth_error (Blocks b) (Z.to_nat (blockNumber - 1)) = Some prev ->
  nth_error (Blocks b) (Z.to_nat (blockNumber - 10080)) = Some oldest ->
  u64 (Timestamp prev - Timestamp oldest) <> 0 ->
  Blockchain.CalculatePackedTarget b blockNumber
  = Ok (if Unpack genesisPackedTarget
           <? u256 (Unpack (PackedTarget prev)
                    * ((10080 * 60) / u64 (Timestamp prev - Timestamp oldest)))
        then genesisPackedTarget
        else PackTargetUint256
               (u256 (Unpack (PackedTarget prev)
                      * ((10080 * 60) / u64 (Timestamp prev - Timestamp oldest))))).
Proof.
  intros Hbn Hlen Hmod Hprev Hold Hnz.
  destruct (CalculatePackedTarget_within b blockNumber Hbn Hlen) as [prev' [Hnth [_ Hon]]].
  rewrite Hprev in Hnth. injection Hnth as <-.
  destruct (Hon Hmod) as [oldest' [Hnth' [_ Hres]]].
  rewrite Hold in Hnth'. injection Hnth' as <-.
  apply Hres. exact Hnz.
Qed.

Lemma CalculatePackedTarget_on_boundary_witness :
  1 <= 10080 <= Z.of_nat (length (Blocks (Sample.week_chain 0x1c0fffff 302400))) /\
  Blockchain.CalculatePackedTarget (Sample.week_chain 0x1c0fffff 302400) 10080
  = Ok 0x1c1ffffe.
Proof.
  split; [vm_compute; intuition congruence |].
  rewrite (CalculatePackedTarget_on_boundary (Sample.week_chain 0x1c0fffff 302400) 10080
             (Sample.week_block 0x1c0fffff (1700000000 + 302400))
             (Sample.week_block 0x1c0fffff 1700000000)).
  - vm_compute; reflexivity.
  - vm_compute; intuition congruence.
  - vm_compute; reflexivity.
  - vm_compute; reflexivity.
  - vm_compute; reflexivity.
  - vm_compute; reflexivity.
  - vm_compute; congruence.
Defined.

(** X7.  A retarget week that took more than [10080 * 60] seconds makes
    the multiplier zero: the new target is the packed form of zero,
    whatever the previous target was. *)
Theorem CalculatePackedTarget_slow_week
        (b : Blockchain) (blockNumber : Z) (prev oldest : Block) :
  1 <= blockNumber <= Z.of_nat (length (Blocks b)) ->
  Z.of_nat (length (Blocks b)) < 2 ^ 63 ->
  blockNumber mod 10080 = 0 ->
  nth_error (Blocks b) (Z.to_nat (blockNumber - 1)) = Some prev ->
  nth_error (Blocks b) (Z.to_nat (blockNumber - 10080)) = Some oldest ->
  10080 * 60 < u64 (Timestamp prev - Timestamp oldest) ->
  Blockchain.CalculatePackedTarget b blockNumber = Ok (PackTargetUint256 0).
Proof.
  intros Hbn Hlen Hmod Hprev Hold Hslow.
  destruct (CalculatePackedTarget_within b blockNumber Hbn Hlen) as [prev' [Hnth [_ Hon]]].
  rewrite Hprev in Hnth. injection Hnth as <-.
  destruct (Hon Hmod) as [oldest' [Hnth' [_ Hres]]].
  rewrite Hold in Hnth'. injection Hnth' as <-.
  cbv zeta in Hres. rewrite Hres by lia.
  rewrite Z.div_small by lia. rewrite Z.mul_0_r.
  change (u256 0) with 0.
  pose proof (Unpack_range genesisPackedTarget) as Hg.
  destruct (Z.ltb_spec (Unpack genesisPackedTarget) 0) as [Hneg | _]; [| reflexivity].
  assert (0 <= genesisPackedTarget) by (vm_compute; congruence). lia.
Qed.

Lemma CalculatePackedTarget_slow_week_witness :
  1 <= 10080 <= Z.of_nat (length (Blocks (Sample.week_chain 0x1c0fffff 1209600))) /\
  Blockchain.CalculatePackedTarget (Sample.week_chain 0x1c0fffff 1209600) 10080
  = Ok (PackTargetUint256 0).
Proof.
  split; [vm_compute; intuition congruence |].
  apply (CalculatePackedTarget_slow_week (Sample.week_chain 0x1c0fffff 1209600) 10080
           (Sample.week_block 0x1c0fffff (1700000000 + 1209600))
           (Sample.week_block 0x1c0fffff 1700000000)).
  - vm_compute; intuition congruence.
  - vm_compute; reflexivity.
  - vm_compute; reflexivity.
  - vm_compute; reflexivity.
  - vm_compute; reflexivity.
  - vm_compute; reflexivity.
Defined.

(** ** The reward schedule as a whole *)

(** X8.  For every [uint32] height: 200_000_000 before the first halving,
    [(200 / 2^halvings) * 1_000_000] for 1 to 63 halvings, and a division
    by zero from the 64th halving on. *)
Theorem GetBlockReward_by_era (h : Z) :
  0 <= h < 2 ^ 32 ->
  (h / 525600 = 0 -> Blockchain.GetBlockReward h = Ok 200000000) /\
  (1 <= h / 525600 <= 63 ->
     Blockchain.GetBlockReward h = Ok ((200 / 2 ^ (h / 525600)) * 1000000)) /\
  (64 <= h / 525600 -> Blockchain.GetBlockReward h = Panic divide_by_zero).
Proof.
  intros Hh. split; [| split].
  - intros Hk. unfold Blockchain.GetBlockReward. rewrite Hk. reflexivity.
  - intros Hk. apply GetBlockReward_halved; assumption.
  - intros Hk. apply GetBlockReward_panics; assumption.
Qed.

Lemma GetBlockReward_by_era_witness :
  0 <= 525600 * 3 < 2 ^ 32 /\
  Blockchain.GetBlockReward (525600 * 3) = Ok ((200 / 2 ^ ((525600 * 3) / 525600)) * 1000000).
Proof.
  split; [vm_compute; intuition congruence |].
  apply (GetBlockReward_by_era (525600 * 3)).
  - vm_compute; intuition congruence.
  - vm_compute; intuition congruence.
Defined.

Lemma reward_value_reward_of (h : Z) :
  0 <= h < 525600 * 64 -> Blockchain.reward_value h = Wallet.reward_of h.
Proof.
  intros Hh. unfold Blockchain.reward_value.
  rewrite GetBlockReward_reward_of by exact Hh. reflexivity.
Qed.

Lemma reward_of_power (h : Z) :
  0 <= h -> Wallet.reward_of h = (200 / 2 ^ (h / 525600)) * 1000000.
Proof.
  intros Hh. unfold Wallet.reward_of.
  destruct (Z.eqb_spec (h / 525600) 0) as [E0 | _]; [| reflexivity].
  rewrite E0. reflexivity.
Qed.

(** X9.  Below the 64th halving the reward never grows with the height. *)
Theorem GetBlockReward_never_grows (h1 h2 r1 r2 : Z) :
  0 <= h1 <= h2 -> h2 < 525600 * 64 ->
  Blockchain.GetBlockReward h1 = Ok r1 ->
  Blockchain.GetBlockReward h2 = Ok r2 ->
  r2 <= r1.
Proof.
  intros Hh Hbound H1 H2.
  rewrite GetBlockReward_reward_of in H1, H2 by lia.
  injection H1 as <-. injection H2 as <-.
  rewrite !reward_of_power by lia.
  apply Z.mul_le_mono_nonneg_r; [lia |].
  assert (Hk : 0 <= h1 / 525600 <= h2 / 525600).
  { split; [apply Z.div_pos; lia | apply Z.div_le_mono; lia]. }
  apply Z.div_le_compat_l; [lia |].
  split; [apply Z.pow_pos_nonneg; lia | apply Z.pow_le_mono_r; lia].
Qed.

Lemma GetBlockReward_never_grows_witness :
  0 <= 525599 <= 525600 /\ 525600 < 525600 * 64 /\
  Blockchain.GetBlockReward 525599 = Ok 200000000 /\
  Blockchain.GetBlockReward 525600 = Ok 100000000 /\
  100000000 <= 200000000.
Proof.
  split; [vm_compute; intuition congruence |].
  split; [vm_compute; reflexivity |].
  split; [reflexivity |]. split; [reflexivity |].
  apply (GetBlockReward_never_grows 525599 525600 200000000 100000000).
  - vm_compute; intuition congruence.
  - vm_compute; reflexivity.
  - reflexivity.
  - reflexivity.
Defined.

Lemma issued_constant (c : Z) (n : nat) :
  forall from,
    (forall h, from <= h < from + Z.of_nat n -> Blockchain.reward_value h = c) ->
    Blockchain.issued from n = Z.of_nat n * c.
Proof.
  induction n as [| n IH]; intros from Hc; [reflexivity |].
  cbn [Blockchain.issued]. rewrite Hc by lia.
  rewrite IH by (intros h Hh; apply Hc; lia).
  rewrite Nat2Z.inj_succ. ring.
Qed.

Lemma issued_app (n m : nat) :
  forall from,
    Blockchain.issued from (n + m)
    = Blockchain.issued from n + Blockchain.issued (from + Z.of_nat n) m.
Proof.
  induction n as [| n IH]; intros from.
  - cbn [Nat.add Blockchain.issued]. rewrite Nat2Z.inj_0, Z.add_0_r. reflexivity.
  - cbn [Nat.add Blockchain.issued]. rewrite IH, Nat2Z.inj_succ.
    replace (from + 1 + Z.of_nat n) with (from + Z.succ (Z.of_nat n)) by lia. ring.
Qed.

(** Within a halving period the reward is the one at its start. *)
Lemma reward_value_in_era (e h : Z) :
  0 <= e < 64 -> 525600 * e <= h < 525600 * e + 525600 ->
  Blockchain.reward_value h = Blockchain.reward_value (525600 * e).
Proof.
  intros He Hh. rewrite !reward_value_reward_of by lia.
  rewrite !reward_of_power by lia.
  assert (H1 : h / 525600 = e).
  { symmetry. apply (Z.div_unique h 525600 e (h - 525600 * e)); lia. }
  assert (H2 : (525600 * e) / 525600 = e).
  { rewrite Z.mul_comm. apply Z.div_mul. lia. }
  rewrite H1, H2. reflexivity.
Qed.

Lemma issued_by_era (N : nat) (e : nat) :
  Z.of_nat N = 525600 -> (e <= 64)%nat ->
  Blockchain.issued 0 (e * N) = Blockchain.era_total e.
Proof.
  intros HN. induction e as [| e IH]; intros He; [reflexivity |].
  replace (S e * N)%nat with (e * N + N)%nat by lia.
  rewrite issued_app, IH by lia. cbn [Blockchain.era_total]. f_equal.
  rewrite (issued_constant (Blockchain.reward_value (525600 * Z.of_nat e))).
  - rewrite HN. reflexivity.
  - intros h Hh. apply reward_value_in_era; nia.
Qed.

(** X10.  The rewards of all the heights below the 64th halving, where
    [GetBlockReward] returns, add up to 208_663_200 coins of 1_000_000
    units, the total the source comment gives. *)
Theorem total_issuance :
  Blockchain.issued 0 (Z.to_nat (525600 * 64)) = 208663200 * 1000000.
Proof.
  assert (HN : Z.of_nat (Z.to_nat 525600) = 525600) by (apply Z2Nat.id; lia).
  revert HN. generalize (Z.to_nat 525600) as N. intros N HN.
  replace (Z.to_nat (525600 * 64)) with (64 * N)%nat by lia.
  rewrite (issued_by_era N 64 HN) by lia.
  vm_compute. reflexivity.
Qed.

(** ** The fresh ledger *)

(** X11.  The ledger [InitBlockchain] builds has height 0, passes
    [VerifyBlockchain] unchanged, gives the genesis target for block
    number 1, and, holding one block only, lets [VerifyBlock] accept any
    block whatever, untouched. *)
Theorem InitBlockchain_is_valid {E : Externals} (minerKey : string) :
  Blockchain.GetHeight (Blockchain.InitBlockchain minerKey) = 0 /\
  Wallet.VerifyBlockchain (Blockchain.InitBlockchain minerKey)
  = Ok (true, Blockchain.InitBlockchain minerKey) /\
  Blockchain.CalculatePackedTarget (Blockchain.InitBlockchain minerKey) 1
  = Ok 0x1d0fffff /\
  forall (block : Block) (check : bool),
    Wallet.VerifyBlock (Blockchain.InitBlockchain minerKey) block check
    = Ok (true, block).
Proof. repeat split. Qed.

(** ** Block validation: what it leaves alone *)

Section VerifyBlockFrame.
Context {E : Externals}.

(** X12.  Whatever [VerifyBlock] returns, the block it leaves behind has
    the header it was given and transactions taken from the original
    list; a rejected block is left as it was. *)
Theorem VerifyBlock_changes_transactions_only
        (chain : Blockchain) (block block' : Block) (check ok : bool) :
  Wallet.VerifyBlock chain block check = Ok (ok, block') ->
  with_Txs block (Txs block') = block' /\
  (forall tx, In tx (Txs block') -> In tx (Txs block)) /\
  (ok = false -> block' = block).
Proof.
  assert (Hsame : with_Txs block (Txs block) = block) by (destruct block; reflexivity).
  assert (Hkeep : forall v, Ok (v, block) = Ok (ok, block') ->
            with_Txs block (Txs block') = block' /\
            (forall tx, In tx (Txs block') -> In tx (Txs block)) /\
            (ok = false -> block' = block)).
  { intros v Heq. injection Heq as <- <-. repeat split; auto. }
  unfold Wallet.VerifyBlock.
  destruct (Z.of_nat (length (Blocks chain)) =? 1); [apply Hkeep |].
  destruct (check && negb _); [apply Hkeep |].
  cbv zeta. destruct (negb (String.eqb _ (BlockHash block))); [apply Hkeep |].
  destruct (index (Blocks chain) (Blockchain.GetHeight chain)) as [tip | msg];
    [| discriminate].
  cbn [bind].
  destruct (negb (String.eqb (PrevHash block) (BlockHash tip))); [apply Hkeep |].
  destruct ((Timestamp block <? Timestamp tip) || _); [apply Hkeep |].
  destruct (Blockchain.CalculatePackedTarget chain _) as [target | msg]; [| discriminate].
  cbn [bind].
  destruct (negb (PackedTarget block =? target)); [apply Hkeep |].
  destruct (negb (String.eqb (MerkleRoot block) _)); [apply Hkeep |].
  destruct (Wallet.check_txs (length (Txs block)) chain (Txs block) 0) as [txs | msg] eqn:Hrun;
    [| discriminate].
  cbn [bind]. intros Heq. injection Heq as <- <-.
  split; [reflexivity |]. split; [| discriminate].
  cbn [with_Txs Txs]. apply (check_txs_incl chain _ _ _ _ Hrun).
Qed.

(** X13.  On a ledger without blocks [VerifyBlock] accepts nothing: it
    returns false or panics reading the tip. *)
Theorem VerifyBlock_on_empty_chain_never_accepts
        (cache : Z) (block block' : Block) (check : bool) :
  Wallet.VerifyBlock (mkBlockchain [] cache) block check <> Ok (true, block').
Proof.
  unfold Wallet.VerifyBlock. cbn [Blocks length].
  change (Z.of_nat 0 =? 1) with false. cbv iota.
  destruct (check && negb _); [discriminate |].
  cbv zeta. destruct (negb (String.eqb _ (BlockHash block))); [discriminate |].
  discriminate.
Qed.

(** The transaction loop on a list split at the loop's index, when no two
    neighbours of what is left both fail: what is left is filtered. *)
Lemma check_txs_filters (chain : Blockchain) (valid : LuTx -> bool) (n : nat) :
  forall (rest done : list LuTx) (fuel : nat),
    (length rest <= n)%nat -> (length rest <= fuel)%nat ->
    (forall tx, In tx rest -> Wallet.VerifyTx chain tx = Ok (valid tx)) ->
    no_adjacent_failures valid rest = true ->
    Wallet.check_txs fuel chain (done ++ rest) (length done)
    = Ok (done ++ filter valid rest).
Proof.
  induction n as [| n IH]; intros rest done fuel Hn Hfuel Hall Hadj.
  - destruct rest; [| cbn in Hn; lia].
    cbn [filter]. rewrite !app_nil_r. destruct fuel; cbn [Wallet.check_txs]; [reflexivity |].
    assert (Hnone : nth_error done (length done) = None)
      by (apply nth_error_None; lia).
    rewrite Hnone. reflexivity.
  - destruct rest as [| t rest].
    + cbn [filter]. rewrite !app_nil_r. destruct fuel; cbn [Wallet.check_txs]; [reflexivity |].
      assert (Hnone : nth_error done (length done) = None)
        by (apply nth_error_None; lia).
      rewrite Hnone. reflexivity.
    + destruct fuel as [| fuel]; [cbn in Hfuel; lia |].
      cbn [Wallet.check_txs].
      rewrite nth_error_app2, Nat.sub_diag by lia. cbn [nth_error].
      rewrite (Hall t (or_introl eq_refl)). cbn [bind filter].
      destruct (valid t) eqn:Hvt; cbn [negb].
      * replace (done ++ t :: rest) with ((done ++ [t]) ++ rest)
          by (rewrite <- app_assoc; reflexivity).
        replace (S (length done)) with (length (done ++ [t]))
          by (rewrite length_app; cbn; lia).
        rewrite IH.
        -- rewrite <- app_assoc. reflexivity.
        -- cbn in Hn. lia.
        -- cbn in Hfuel. lia.
        -- intros tx Hin. apply Hall. right. exact Hin.
        -- destruct rest as [| t2 rest]; [reflexivity |].
           cbn [no_adjacent_failures] in Hadj.
           apply andb_true_iff in Hadj. apply Hadj.
      * assert (Hrm : RemoveTx (done ++ t :: rest) (length done) = done ++ rest).
        { unfold RemoveTx. rewrite firstn_app, Nat.sub_diag, firstn_all.
          cbn [firstn]. rewrite app_nil_r.
          replace (S (length done)) with (length done + 1)%nat by lia.
          rewrite skipn_app, skipn_all2 by lia.
          replace (length done + 1 - length done)%nat with 1%nat by lia.
          reflexivity. }
        rewrite Hrm.
        destruct rest as [| t2 rest].
        -- cbn [filter]. rewrite !app_nil_r. destruct fuel; cbn [Wallet.check_txs]; [reflexivity |].
           assert (Hnone : nth_error done (S (length done)) = None)
             by (apply nth_error_None; lia).
           rewrite Hnone. reflexivity.
        -- cbn [no_adjacent_failures] in Hadj.
           apply andb_true_iff in Hadj. destruct Hadj as [Hpair Hadj].
           rewrite Hvt in Hpair. cbn [orb] in Hpair.
           cbn [filter]. rewrite Hpair.
           replace (done ++ t2 :: rest) with ((done ++ [t2]) ++ rest)
             by (rewrite <- app_assoc; reflexivity).
           replace (S (length done)) with (length (done ++ [t2]))
             by (rewrite length_app; cbn; lia).
           rewrite IH.
           ++ rewrite <- app_assoc. reflexivity.
           ++ cbn in Hn. lia.
           ++ cbn in Hfuel. lia.
           ++ intros tx Hin. apply Hall. right. right. exact Hin.
           ++ destruct rest as [| t3 rest]; [reflexivity |].
              cbn [no_adjacent_failures] in Hadj.
              apply andb_true_iff in Hadj. apply Hadj.
Qed.

End VerifyBlockFrame.

(** X14.  When the header rules hold and no two neighbouring transactions
    of the block both fail [VerifyTx], the accepted block carries exactly
    the transactions that pass, in their order; with all of them passing
    the block is unchanged. *)
Theorem VerifyBlock_filters_isolated_failures {E : Externals}
        (chain : Blockchain) (block : Block) (check : bool) (valid : LuTx -> bool) :
  Wallet.header_rules_pass chain block check ->
  (forall tx, In tx (Txs block) -> Wallet.VerifyTx chain tx = Ok (valid tx)) ->
  no_adjacent_failures valid (Txs block) = true ->
  Wallet.VerifyBlock chain block check
  = Ok (true, with_Txs block (filter valid (Txs block))).
Proof.
  intros Hrules Hall Hadj.
  rewrite (VerifyBlock_after_header chain block check Hrules).
  pose proof (check_txs_filters chain valid (length (Txs block)) (Txs block) []
                (length (Txs block)) (Nat.le_refl _) (Nat.le_refl _) Hall Hadj) as Hrun.
  cbn [app length] in Hrun. rewrite Hrun. reflexivity.
Qed.

Lemma VerifyBlock_changes_transactions_only_witness :
  Wallet.VerifyBlock (E := Sample.small_env) Sample.funded_chain Sample.third_block true
  = Ok (true, with_Txs Sample.third_block [Sample.second_overdraft]) /\
  with_Txs Sample.third_block (Txs (with_Txs Sample.third_block [Sample.second_overdraft]))
  = with_Txs Sample.third_block [Sample.second_overdraft].
Proof.
  split; [vm_compute; reflexivity |].
  apply (VerifyBlock_changes_transactions_only (E := Sample.small_env)
           Sample.funded_chain Sample.third_block
           (with_Txs Sample.third_block [Sample.second_overdraft]) true true).
  vm_compute; reflexivity.
Defined.

Lemma mixed_block_passes_header :
  Wallet.header_rules_pass (E := Sample.small_env) Sample.funded_chain Sample.mixed_block true.
Proof.
  unfold Wallet.header_rules_pass.
  split; [vm_compute; congruence |].
  split; [intros _; reflexivity |].
  split; [vm_compute; reflexivity |].
  split.
  - exists Sample.second_block.
    split; [reflexivity |]. split; [reflexivity |].
    vm_compute. intuition congruence.
  - split; vm_compute; reflexivity.
Defined.

Lemma VerifyBlock_filters_isolated_failures_witness :
  Wallet.header_rules_pass (E := Sample.small_env) Sample.funded_chain Sample.mixed_block true /\
  no_adjacent_failures (fun tx => Value tx =? 95) (Txs Sample.mixed_block) = true /\
  Wallet.VerifyBlock (E := Sample.small_env) Sample.funded_chain Sample.mixed_block true
  = Ok (true, with_Txs Sample.mixed_block [Sample.exact_spend]).
Proof.
  split; [exact mixed_block_passes_header |].
  split; [reflexivity |].
  apply (VerifyBlock_filters_isolated_failures (E := Sample.small_env)
           Sample.funded_chain Sample.mixed_block true (fun tx => Value tx =? 95)).
  - exact mixed_block_passes_header.
  - intros tx [<- | [<- | []]]; reflexivity.
  - reflexivity.
Defined.

(** ** Validation of the whole chain *)

Lemma subsequence_refl {A : Type} (l : list A) : subsequence l l.
Proof. induction l; constructor; assumption. Qed.

Lemma subsequence_trans {A : Type} (l2 l3 : list A) :
  subsequence l2 l3 -> forall l1, subsequence l1 l2 -> subsequence l1 l3.
Proof.
  induction 1 as [| x l2 l3 _ IH | x l2 l3 _ IH]; intros l1 H12.
  - exact H12.
  - inversion H12 as [| y k l Hk | y k l Hk]; subst.
    + apply subsequence_keep. apply IH. exact Hk.
    + apply subsequence_drop. apply IH. exact Hk.
  - apply subsequence_drop. apply IH. exact H12.
Qed.

Lemma subsequence_length {A : Type} (kept l : list A) :
  subsequence kept l -> (length kept <= length l)%nat.
Proof. induction 1; cbn [length]; lia. Qed.

Lemma subsequence_In {A : Type} (kept l : list A) :
  subsequence kept l -> forall x, In x kept -> In x l.
Proof.
  induction 1 as [| y kept l _ IH | y kept l _ IH]; intros x Hin.
  - exact Hin.
  - destruct Hin as [-> | Hin]; [left; reflexivity | right; apply IH; exact Hin].
  - right. apply IH. exact Hin.
Qed.

(** Removing the transaction at an index leaves the others in order. *)
Lemma RemoveTx_subsequence (txs : list LuTx) :
  forall i, subsequence (RemoveTx txs i) txs.
Proof.
  unfold RemoveTx. induction txs as [| t txs IH]; intros i.
  - rewrite firstn_nil, skipn_nil. constructor.
  - destruct i as [| i]; cbn [firstn skipn app].
    + apply subsequence_drop. apply subsequence_refl.
    + apply subsequence_keep. apply IH.
Qed.

Lemma pruned_block_refl (b : Block) : pruned_block b b.
Proof. split; [destruct b; reflexivity | apply subsequence_refl]. Qed.

Lemma pruned_block_trans (a b c : Block) :
  pruned_block a b -> pruned_block b c -> pruned_block a c.
Proof.
  intros [Hab Iab] [Hbc Ibc]. split.
  - rewrite <- Hbc. rewrite <- Hab. reflexivity.
  - apply (subsequence_trans _ _ Iab). exact Ibc.
Qed.

Lemma pruned_refl (l : list Block) : pruned l l.
Proof. induction l; constructor; [apply pruned_block_refl | assumption]. Qed.

Lemma pruned_trans (l1 l2 l3 : list Block) :
  pruned l1 l2 -> pruned l2 l3 -> pruned l1 l3.
Proof.
  intros H12. revert l3. induction H12 as [| a b l1 l2 Hab _ IH]; intros l3 H23.
  - inversion H23. constructor.
  - inversion H23 as [| b' c l2' l3' Hbc H23' ]; subst.
    constructor; [apply (pruned_block_trans a b c); assumption | apply IH; assumption].
Qed.

Lemma pruned_replace_nth (l : list Block) :
  forall (i : nat) (b b' : Block),
    nth_error l i = Some b -> pruned_block b b' ->
    pruned l (Wallet.replace_nth l i b').
Proof.
  induction l as [| a l IH]; intros i b b' Hnth Hp.
  - destruct i; discriminate.
  - destruct i as [| i]; cbn [Wallet.replace_nth].
    + injection Hnth as ->. constructor; [exact Hp | apply pruned_refl].
    + constructor; [apply pruned_block_refl | apply (IH i b b'); assumption].
Qed.

Lemma pruned_nth_error (l l' : list Block) :
  pruned l l' ->
  forall j b', nth_error l' j = Some b' ->
               exists b, nth_error l j = Some b /\ pruned_block b b'.
Proof.
  induction 1 as [| a a' l l' Ha _ IH]; intros j b' Hnth.
  - destruct j; discriminate.
  - destruct j as [| j].
    + injection Hnth as <-. exists a. split; [reflexivity | exact Ha].
    + apply (IH j b' Hnth).
Qed.

Lemma pruned_length (l l' : list Block) : pruned l l' -> length l = length l'.
Proof. induction 1; cbn; congruence. Qed.

Lemma pruned_block_header (b b' : Block) :
  pruned_block b b' ->
  PrevHash b' = PrevHash b /\ BlockHash b' = BlockHash b /\ Timestamp b' = Timestamp b.
Proof. intros [H _]. rewrite <- H. repeat split. Qed.

Lemma linked_to_tip_pruned (l l' : list Block) (j : nat) :
  pruned l l' -> linked_to_tip l' j -> linked_to_tip l j.
Proof.
  intros Hp [block' [tip' [Hb [Ht [Hlink Htime]]]]].
  destruct (pruned_nth_error l l' Hp j block' Hb) as [block [Hb0 Hpb]].
  destruct (pruned_nth_error l l' Hp _ tip' Ht) as [tip [Ht0 Hpt]].
  rewrite <- (pruned_length l l' Hp) in Ht0.
  destruct (pruned_block_header _ _ Hpb) as [Hprev [_ Htb]].
  destruct (pruned_block_header _ _ Hpt) as [_ [Hhash Htt]].
  exists block, tip. repeat split; try assumption; congruence.
Qed.

Section VerifyBlockchainTheorems.
Context {E : Externals}.

Lemma check_txs_at_pruned (fuel : nat) :
  forall (chain : Blockchain) (i idx : nat) (chain' : Blockchain),
    Wallet.check_txs_at fuel chain i idx = Ok chain' ->
    pruned (Blocks chain) (Blocks chain').
Proof.
  induction fuel as [| fuel IH]; intros chain i idx chain' Hrun.
  - injection Hrun as <-. apply pruned_refl.
  - cbn [Wallet.check_txs_at] in Hrun.
    destruct (nth_error (Blocks chain) i) as [block |] eqn:Hblock; [| discriminate].
    destruct (nth_error (Txs block) idx) as [tx |];
      [| injection Hrun as <-; apply pruned_refl].
    destruct (Wallet.VerifyTx chain tx) as [[|] | msg]; cbn in Hrun; try discriminate.
    + apply (IH _ _ _ _ Hrun).
    + apply IH in Hrun. cbn [Blocks] in Hrun.
      refine (pruned_trans _ _ _ _ Hrun).
      apply (pruned_replace_nth _ i block); [exact Hblock |].
      split; [reflexivity |]. cbn [with_Txs Txs]. apply RemoveTx_subsequence.
Qed.

(** What an accepting [VerifyBlockAt] has checked, on a chain of more than
    one block, and what it has left of the chain. *)
Lemma VerifyBlockAt_accepts (chain chain' : Blockchain) (i : nat) (ok : bool) :
  Wallet.VerifyBlockAt chain i false = Ok (ok, chain') ->
  pruned (Blocks chain) (Blocks chain') /\
  (ok = true ->
   Z.of_nat (length (Blocks chain)) <> 1 ->
   Z.of_nat (length (Blocks chain)) < 2 ^ 63 ->
   linked_to_tip (Blocks chain) i).
Proof.
  assert (Hkeep : forall c, Blocks c = Blocks chain ->
            Ok (false, c) = Ok (ok, chain') ->
            pruned (Blocks chain) (Blocks chain') /\
            (ok = true -> Z.of_nat (length (Blocks chain)) <> 1 ->
             Z.of_nat (length (Blocks chain)) < 2 ^ 63 ->
             linked_to_tip (Blocks chain) i)).
  { intros c Hc Heq. injection Heq as <- <-. rewrite Hc.
    split; [apply pruned_refl | discriminate]. }
  unfold Wallet.VerifyBlockAt.
  destruct (index (Blocks chain) (Z.of_nat i)) as [block | msg] eqn:Hblock; [| discriminate].
  cbn [bind].
  destruct (Z.eqb_spec (Z.of_nat (length (Blocks chain))) 1) as [Hone | Hmany].
  { intros Heq. injection Heq as <- <-. split; [apply pruned_refl | contradiction]. }
  cbn [andb]. cbv zeta.
  destruct (negb (String.eqb _ (BlockHash block))); [apply Hkeep; reflexivity |].
  unfold Blockchain.GetHeight at 2. cbn [Blocks].
  fold (Blockchain.GetHeight chain).
  destruct (index (Blocks chain) (Blockchain.GetHeight chain)) as [tip | msg] eqn:Htip;
    [| discriminate].
  cbn [bind].
  destruct (String.eqb_spec (PrevHash block) (BlockHash tip)) as [Hlink | _];
    [| apply Hkeep; reflexivity].
  cbn [negb].
  destruct (Z.ltb_spec (Timestamp block) (Timestamp tip)) as [_ | Htime];
    [apply Hkeep; reflexivity |].
  cbn [orb].
  destruct (CurrentUnix 0 <? Timestamp block); [apply Hkeep; reflexivity |].
  destruct (Blockchain.CalculatePackedTarget _ _) as [target | msg]; [| discriminate].
  cbn [bind].
  destruct (negb (PackedTarget block =? target)); [apply Hkeep; reflexivity |].
  destruct (negb (String.eqb (MerkleRoot block) _)); [apply Hkeep; reflexivity |].
  destruct (Wallet.check_txs_at _ _ i 0) as [chain1 | msg] eqn:Hrun; [| discriminate].
  cbn [bind]. intros Heq. injection Heq as <- <-.
  apply check_txs_at_pruned in Hrun. cbn [Blocks] in Hrun.
  split; [exact Hrun |].
  intros _ _ Hlen.
  exists block, tip.
  unfold index in Hblock, Htip.
  destruct (Z.of_nat i <? _); [| discriminate].
  rewrite Nat2Z.id in Hblock.
  destruct (nth_error (Blocks chain) i) as [b0 |]; [| discriminate].
  injection Hblock as ->.
  destruct (Z.ltb_spec (Blockchain.GetHeight chain) (Z.of_nat (length (Blocks chain))))
    as [Hh | _]; [| discriminate].
  assert (Hne : Blocks chain <> []).
  { intros Hnil. unfold Blockchain.GetHeight in Hh. rewrite Hnil in Hh.
    cbn in Hh. lia. }
  rewrite (GetHeight_nonempty chain Hne Hlen) in Htip.
  replace (Z.to_nat (Z.of_nat (length (Blocks chain)) - 1))
    with (length (Blocks chain) - 1)%nat in Htip by lia.
  destruct (nth_error (Blocks chain) (length (Blocks chain) - 1)) as [t0 |];
    [| discriminate].
  injection Htip as ->.
  repeat split; try reflexivity; assumption.
Qed.

Lemma verify_blocks_pruned (fuel : nat) :
  forall (chain chain' : Blockchain) (idx : nat) (ok : bool),
    Wallet.verify_blocks fuel chain idx = Ok (ok, chain') ->
    pruned (Blocks chain) (Blocks chain').
Proof.
  induction fuel as [| fuel IH]; intros chain chain' idx ok Hrun.
  - injection Hrun as <- <-. apply pruned_refl.
  - cbn [Wallet.verify_blocks] in Hrun.
    destruct (idx <? length (Blocks chain))%nat;
      [| injection Hrun as <- <-; apply pruned_refl].
    destruct (Wallet.VerifyBlockAt chain idx false) as [[ok1 chain1] | msg] eqn:Hat;
      [| discriminate].
    cbn [bind fst snd] in Hrun.
    destruct (VerifyBlockAt_accepts _ _ _ _ Hat) as [Hp1 _].
    destruct ok1; cbn [negb] in Hrun.
    + apply (pruned_trans _ _ _ Hp1). apply (IH _ _ _ _ Hrun).
    + injection Hrun as <- <-. exact Hp1.
Qed.

Lemma verify_blocks_linked (fuel : nat) :
  forall (chain chain' : Blockchain) (idx : nat),
    Z.of_nat (length (Blocks chain)) <> 1 ->
    Z.of_nat (length (Blocks chain)) < 2 ^ 63 ->
    (length (Blocks chain) - idx <= fuel)%nat ->
    Wallet.verify_blocks fuel chain idx = Ok (true, chain') ->
    forall j, (idx <= j < length (Blocks chain))%nat -> linked_to_tip (Blocks chain) j.
Proof.
  induction fuel as [| fuel IH]; intros chain chain' idx Hmany Hlen Hfuel Hrun j Hj;
    [lia |].
  cbn [Wallet.verify_blocks] in Hrun.
  destruct (Nat.ltb_spec idx (length (Blocks chain))) as [_ | Hge]; [| lia].
  destruct (Wallet.VerifyBlockAt chain idx false) as [[ok1 chain1] | msg] eqn:Hat;
    [| discriminate].
  cbn [bind fst snd] in Hrun.
  destruct (VerifyBlockAt_accepts _ _ _ _ Hat) as [Hp1 Hlink].
  destruct ok1; cbn [negb] in Hrun; [| discriminate].
  destruct (Nat.eq_dec j idx) as [-> | Hne].
  - apply Hlink; [reflexivity | assumption | assumption].
  - pose proof (pruned_length _ _ Hp1) as Hsame.
    apply (linked_to_tip_pruned _ _ j Hp1).
    apply (IH chain1 chain' (S idx)); rewrite <- ?Hsame; try assumption; lia.
Qed.

(** The blocks [VerifyBlockchain] has accepted after the genesis are all
    linked to the last block. *)
Lemma VerifyBlockchain_linked (chain chain' : Blockchain) :
  Z.of_nat (length (Blocks chain)) < 2 ^ 63 ->
  Wallet.VerifyBlockchain chain = Ok (true, chain') ->
  forall j, (1 <= j < length (Blocks chain))%nat -> linked_to_tip (Blocks chain) j.
Proof.
  intros Hlen Hrun j Hj. unfold Wallet.VerifyBlockchain in Hrun.
  destruct (Z.eqb_spec (Z.of_nat (length (Blocks chain))) 0) as [Hz | _]; [lia |].
  destruct (index (Blocks chain) 0) as [genesis | msg]; [| discriminate].
  cbn [bind] in Hrun.
  destruct (negb (Z.of_nat (length (Txs genesis)) =? 0)); [discriminate |].
  destruct (negb (PackedTarget genesis =? 0x1d0fffff)); [discriminate |].
  apply (verify_blocks_linked (length (Blocks chain)) chain chain' 1);
    try assumption; lia.
Qed.

Lemma VerifyBlockchain_pruned (chain chain' : Blockchain) (ok : bool) :
  Wallet.VerifyBlockchain chain = Ok (ok, chain') ->
  pruned (Blocks chain) (Blocks chain').
Proof.
  unfold Wallet.VerifyBlockchain.
  destruct (Z.of_nat (length (Blocks chain)) =? 0);
    [intros Heq; injection Heq as <- <-; apply pruned_refl |].
  destruct (index (Blocks chain) 0) as [genesis | msg]; [| discriminate].
  cbn [bind].
  destruct (negb (Z.of_nat (length (Txs genesis)) =? 0));
    [intros Heq; injection Heq as <- <-; apply pruned_refl |].
  destruct (negb (PackedTarget genesis =? 0x1d0fffff));
    [intros Heq; injection Heq as <- <-; apply pruned_refl |].
  apply verify_blocks_pruned.
Qed.

End VerifyBlockchainTheorems.

(** X15.  [VerifyBlockchain] leaves the chain with the same number of
    blocks, in the same order and with their headers as they were: block
    by block, what is left is the original block with a transaction list
    obtained from the original one by deleting transactions (the ones kept
    stay in order, none is added or repeated). *)
Theorem VerifyBlockchain_removes_transactions_only {E : Externals}
        (chain chain' : Blockchain) (ok : bool) :
  Wallet.VerifyBlockchain chain = Ok (ok, chain') ->
  length (Blocks chain') = length (Blocks chain) /\
  pruned (Blocks chain) (Blocks chain') /\
  (forall j b', nth_error (Blocks chain') j = Some b' ->
     exists b, nth_error (Blocks chain) j = Some b /\
               with_Txs b (Txs b') = b' /\
               subsequence (Txs b') (Txs b) /\
               (length (Txs b') <= length (Txs b))%nat).
Proof.
  intros Hrun. pose proof (VerifyBlockchain_pruned chain chain' ok Hrun) as Hp.
  split; [symmetry; apply pruned_length; exact Hp |].
  split; [exact Hp |].
  intros j b' Hnth.
  destruct (pruned_nth_error _ _ Hp j b' Hnth) as [b0 [Hb0 [Hhead Hsub]]].
  exists b0. repeat split; try assumption.
  apply subsequence_length. exact Hsub.
Qed.

Lemma VerifyBlockchain_removes_transactions_only_witness :
  Wallet.VerifyBlockchain (E := Sample.high_env) Sample.self_linked_spending_chain
  = Ok (true, mkBlockchain
                [Sample.genesis; with_Txs Sample.self_linked_spending_block []] 1) /\
  length [Sample.genesis; with_Txs Sample.self_linked_spending_block []]
  = length (Blocks Sample.self_linked_spending_chain) /\
  pruned (Blocks Sample.self_linked_spending_chain)
         [Sample.genesis; with_Txs Sample.self_linked_spending_block []] /\
  (forall j b',
     nth_error [Sample.genesis; with_Txs Sample.self_linked_spending_block []] j = Some b' ->
     exists b, nth_error (Blocks Sample.self_linked_spending_chain) j = Some b /\
               with_Txs b (Txs b') = b' /\
               subsequence (Txs b') (Txs b) /\
               (length (Txs b') <= length (Txs b))%nat).
Proof.
  split; [vm_compute; reflexivity |].
  apply (VerifyBlockchain_removes_transactions_only (E := Sample.high_env)
           Sample.self_linked_spending_chain
           (mkBlockchain [Sample.genesis; with_Txs Sample.self_linked_spending_block []] 1)
           true).
  vm_compute; reflexivity.
Defined.

(** A list that gained a transaction, or lost the order of two different
    ones, is not a subsequence of the original. *)
Example subsequence_excludes_additions_and_swaps :
  ~ subsequence [Sample.overdraft; Sample.overdraft] [Sample.overdraft] /\
  ~ subsequence [Sample.exact_spend; Sample.overdraft]
                [Sample.overdraft; Sample.exact_spend].
Proof.
  split.
  - intros H. apply subsequence_length in H. cbn in H. lia.
  - intros H. inversion H as [| x k l Hk | x k l Hk]; subst.
    inversion Hk as [| y k' l' Hk' | y k' l' Hk']; subst.
    + inversion Hk'.
    + inversion Hk'.
Qed.

(** X16.  Every block after the genesis of a chain that [VerifyBlockchain]
    accepts names the hash of the chain's last block as its previous hash,
    and is not older than the last block: each block is checked against
    the tip, not against the block before it. *)
Theorem VerifyBlockchain_accepts_blocks_linked_to_tip {E : Externals}
        (chain chain' : Blockchain) (j : nat) :
  Z.of_nat (length (Blocks chain)) < 2 ^ 63 ->
  Wallet.VerifyBlockchain chain = Ok (true, chain') ->
  (1 <= j < length (Blocks chain))%nat ->
  exists block tip,
    nth_error (Blocks chain) j = Some block /\
    nth_error (Blocks chain) (length (Blocks chain) - 1) = Some tip /\
    PrevHash block = BlockHash tip /\
    Timestamp tip <= Timestamp block.
Proof.
  intros Hlen Hrun Hj. apply (VerifyBlockchain_linked chain chain' Hlen Hrun j Hj).
Qed.

Lemma VerifyBlockchain_accepts_blocks_linked_to_tip_witness :
  Z.of_nat (length (Blocks Sample.self_linked_chain)) < 2 ^ 63 /\
  Wallet.VerifyBlockchain (E := Sample.high_env) Sample.self_linked_chain
  = Ok (true, mkBlockchain (Blocks Sample.self_linked_chain) 1) /\
  (1 <= 1 < length (Blocks Sample.self_linked_chain))%nat /\
  exists block tip,
    nth_error (Blocks Sample.self_linked_chain) 1 = Some block /\
    nth_error (Blocks Sample.self_linked_chain)
              (length (Blocks Sample.self_linked_chain) - 1) = Some tip /\
    PrevHash block = BlockHash tip /\
    Timestamp tip <= Timestamp block.
Proof.
  split; [vm_compute; reflexivity |].
  split; [vm_compute; reflexivity |].
  split; [cbn; lia |].
  apply (VerifyBlockchain_accepts_blocks_linked_to_tip (E := Sample.high_env)
           Sample.self_linked_chain (mkBlockchain (Blocks Sample.self_linked_chain) 1) 1).
  - vm_compute; reflexivity.
  - vm_compute; reflexivity.
  - cbn; lia.
Defined.

(** X17.  A chain of two or more blocks whose last block does not name its
    own hash as the previous hash is not accepted by [VerifyBlockchain]. *)
Theorem VerifyBlockchain_rejects_tip_linked_to_predecessor {E : Externals}
        (chain chain' : Blockchain) (tip : Block) :
  Z.of_nat (length (Blocks chain)) < 2 ^ 63 ->
  (2 <= length (Blocks chain))%nat ->
  nth_error (Blocks chain) (length (Blocks chain) - 1) = Some tip ->
  PrevHash tip <> BlockHash tip ->
  Wallet.VerifyBlockchain chain <> Ok (true, chain').
Proof.
  intros Hlen Htwo Htip Hdiff Hrun.
  destruct (VerifyBlockchain_linked chain chain' Hlen Hrun (length (Blocks chain) - 1))
    as [block [tip' [Hb [Ht [Hlink _]]]]]; [lia |].
  rewrite Htip in Hb, Ht. injection Hb as <-. injection Ht as <-.
  contradiction.
Qed.

Lemma VerifyBlockchain_rejects_tip_linked_to_predecessor_witness :
  Z.of_nat (length (Blocks Sample.funded_chain)) < 2 ^ 63 /\
  (2 <= length (Blocks Sample.funded_chain))%nat /\
  PrevHash Sample.second_block = BlockHash Sample.genesis /\
  PrevHash Sample.second_block <> BlockHash Sample.second_block /\
  Wallet.VerifyBlockchain (E := Sample.high_env) Sample.funded_chain
  <> Ok (true, Sample.funded_chain).
Proof.
  split; [vm_compute; reflexivity |].
  split; [cbn; lia |].
  split; [reflexivity |].
  split; [discriminate |].
  apply (VerifyBlockchain_rejects_tip_linked_to_predecessor (E := Sample.high_env)
           Sample.funded_chain Sample.funded_chain Sample.second_block).
  - vm_compute; reflexivity.
  - cbn; lia.
  - reflexivity.
  - discriminate.
Defined.

(** X18.  On a chain of one block [VerifyBlockchain] checks two things
    only, that the block has no transactions and that its packed target is
    [0x1d0fffff]; hash, version and timestamp are not looked at, and the
    chain is left as it was. *)
Theorem VerifyBlockchain_single_block {E : Externals} (g : Block) (cache : Z) :
  Wallet.VerifyBlockchain (mkBlockchain [g] cache)
  = Ok ((Z.of_nat (length (Txs g)) =? 0) && (PackedTarget g =? 0x1d0fffff),
        mkBlockchain [g] cache).
Proof.
  unfold Wallet.VerifyBlockchain. cbn [Blocks].
  change (Z.of_nat (length [g]) =? 0) with false. cbv iota.
  change (index [g] 0) with (Ok g). cbn [bind].
  destruct (Z.of_nat (length (Txs g)) =? 0); [| reflexivity].
  destruct (PackedTarget g =? 0x1d0fffff); reflexivity.
Qed.

(** ** Account scans, as a whole *)

(** X19.  [ScanChainForNonce] returns the number of transactions of the
    ledger whose sender is the key, reduced to 32 bits. *)
Theorem ScanChainForNonce_counts_sent (chain : Blockchain) (pubKey : string) :
  Wallet.ScanChainForNonce chain pubKey
  = u32 (Z.of_nat (length (filter (fun tx => String.eqb (TxFrom tx) pubKey)
                                  (flat_map Txs (Blocks chain))))).
Proof. apply ScanChainForNonce_count. Qed.

(** X20.  On a ledger of at most [525600 * 64 + 11] blocks
    [ScanChainForBalance] returns, modulo [2^64], the values the key
    received plus the rewards of the blocks it mined that have at least 11
    blocks on top of them; values and fees it sent are not subtracted. *)
Theorem ScanChainForBalance_account_view (chain : Blockchain) (pubKey : string) :
  Z.of_nat (length (Blocks chain)) <= 525600 * 64 + 11 ->
  Wallet.ScanChainForBalance chain pubKey
  = Ok (u64 (Wallet.derived_balance 11 chain pubKey)).
Proof. apply ScanChainForBalance_credit. Qed.

Lemma ScanChainForBalance_account_view_witness :
  Z.of_nat (length (Blocks (Sample.buried 11))) <= 525600 * 64 + 11 /\
  Wallet.ScanChainForBalance (Sample.buried 11) "miner"
  = Ok (u64 (Wallet.derived_balance 11 (Sample.buried 11) "miner")).
Proof.
  split; [vm_compute; congruence |].
  apply (ScanChainForBalance_account_view (Sample.buried 11) "miner").
  vm_compute; congruence.
Defined.

Lemma scan_balance_last_txs (pubKey : string) (h : Z) (blk : Block) (tx : LuTx) :
  forall (pre : list Block) (i balance : Z),
    Wallet.scan_balance pubKey h (pre ++ [with_Txs blk (Txs blk ++ [tx])]) i balance
    = (b <- Wallet.scan_balance pubKey h (pre ++ [blk]) i balance ;;
       Ok (if String.eqb (TxTo tx) pubKey then u64 (b + Value tx) else b)).
Proof.
  induction pre as [| a pre IH]; intros i balance.
  - cbn [app Wallet.scan_balance with_Txs Miner Txs].
    destruct (String.eqb (Miner blk) pubKey && (i + 10 <? int_of_uint h)).
    + destruct (Blockchain.GetBlockReward (u32 i)) as [reward | msg]; [| reflexivity].
      cbn [bind]. unfold Wallet.received. rewrite fold_left_app. reflexivity.
    + cbn [bind]. unfold Wallet.received. rewrite fold_left_app. reflexivity.
  - cbn [app Wallet.scan_balance].
    destruct (String.eqb (Miner a) pubKey && (i + 10 <? int_of_uint h)).
    + destruct (Blockchain.GetBlockReward (u32 i)) as [reward | msg]; [| reflexivity].
      cbn [bind]. apply IH.
    + cbn [bind]. apply IH.
Qed.

(** X21.  Recording one more transaction in the newest block adds its
    value to the balance of the receiver (modulo [2^64]) and changes no
    other balance: the sender's balance is not reduced by the value or the
    fee. *)
Theorem recording_a_transaction_credits_receiver_only
        (pre : list Block) (blk : Block) (tx : LuTx) (cache : Z) (pubKey : string) :
  Wallet.ScanChainForBalance
    (mkBlockchain (pre ++ [with_Txs blk (Txs blk ++ [tx])]) cache) pubKey
  = (b <- Wallet.ScanChainForBalance (mkBlockchain (pre ++ [blk]) cache) pubKey ;;
     Ok (if String.eqb (TxTo tx) pubKey then u64 (b + Value tx) else b)).
Proof.
  unfold Wallet.ScanChainForBalance, Blockchain.GetHeight. cbn [Blocks].
  rewrite !length_app. cbn [length]. apply scan_balance_last_txs.
Qed.

Lemma received_range (pubKey : string) (txs : list LuTx) (balance : Z) :
  0 <= balance < 2 ^ 64 -> 0 <= Wallet.received pubKey txs balance < 2 ^ 64.
Proof. intros Hb. rewrite received_sum by exact Hb. apply u64_range. Qed.

Lemma scan_balance_range (pubKey : string) (h : Z) :
  forall (blocks : list Block) (i balance result : Z),
    0 <= balance < 2 ^ 64 ->
    Wallet.scan_balance pubKey h blocks i balance = Ok result ->
    0 <= result < 2 ^ 64.
Proof.
  induction blocks as [| blk rest IH]; intros i balance result Hb Hrun.
  - injection Hrun as <-. exact Hb.
  - cbn [Wallet.scan_balance] in Hrun.
    destruct (String.eqb (Miner blk) pubKey && (i + 10 <? int_of_uint h)).
    + destruct (Blockchain.GetBlockReward (u32 i)) as [reward | msg]; [| discriminate].
      cbn [bind] in Hrun. apply (IH _ _ _ (received_range _ _ _ (u64_range _)) Hrun).
    + cbn [bind] in Hrun. apply (IH _ _ _ (received_range _ _ _ Hb) Hrun).
Qed.

(** X22.  With the balance scan returning, [VerifyTx] accepts a
    transaction exactly when the sender's balance equals [value + fee] as
    a [uint64], the nonce equals the sender's transaction count, and the
    signature over the hash of the transaction without its signature
    validates against the sender's key. *)
Theorem VerifyTx_accepts_iff {E : Externals}
        (chain : Blockchain) (tx : LuTx) (balance : Z) :
  Wallet.ScanChainForBalance chain (TxFrom tx) = Ok balance ->
  (Wallet.VerifyTx chain tx = Ok true <->
   balance = u64 (Value tx + Fee tx) /\
   TxNonce tx = Wallet.ScanChainForNonce chain (TxFrom tx) /\
   ValidateSig (hex_DecodeString (TxFrom tx))
               (ShakeSum256 32 (AsBytes (with_Signature tx "")))
               (hex_DecodeString (Signature tx)) = true).
Proof.
  intros Hscan.
  assert (Hb : 0 <= balance < 2 ^ 64).
  { unfold Wallet.ScanChainForBalance in Hscan.
    apply (scan_balance_range (TxFrom tx) (Blockchain.GetHeight chain)
             (Blocks chain) 0 0 balance); [lia | exact Hscan]. }
  pose proof (u64_range (Value tx + Fee tx)) as Hs.
  unfold Wallet.VerifyTx. rewrite Hscan. cbn [bind].
  destruct (Z.ltb_spec 0 (u64 (balance - u64 (Value tx + Fee tx)))) as [Hpos | Hzero].
  - split; [discriminate |]. intros [Heq _]. rewrite <- Heq, Z.sub_diag in Hpos.
    cbn in Hpos. lia.
  - assert (Heq : balance = u64 (Value tx + Fee tx)).
    { pose proof (u64_range (balance - u64 (Value tx + Fee tx))) as Hr.
      assert (Hz : u64 (balance - u64 (Value tx + Fee tx)) = 0) by lia.
      unfold u64 in Hz at 1. apply Z.mod_divide in Hz; [| lia].
      destruct Hz as [q Hq]. nia. }
    destruct (Z.eqb_spec (TxNonce tx) (Wallet.ScanChainForNonce chain (TxFrom tx)))
      as [Hn | Hn]; cbn [negb].
    + cbv zeta. cbn [with_Signature TxFrom]. split.
      * intros Hv. injection Hv as Hv. repeat split; assumption.
      * intros [_ [_ Hv]]. rewrite Hv. reflexivity.
    + split; [discriminate |]. intros [_ [Hn' _]]. contradiction.
Qed.

Lemma VerifyTx_accepts_iff_witness :
  Wallet.ScanChainForBalance Sample.funded_chain (TxFrom Sample.exact_spend) = Ok 100 /\
  (Wallet.VerifyTx (E := Sample.small_env) Sample.funded_chain Sample.exact_spend = Ok true <->
   100 = u64 (Value Sample.exact_spend + Fee Sample.exact_spend) /\
   TxNonce Sample.exact_spend
   = Wallet.ScanChainForNonce Sample.funded_chain (TxFrom Sample.exact_spend) /\
   ValidateSig (Externals := Sample.small_env)
               (Sample.hex_decode (TxFrom Sample.exact_spend))
               (Sample.small_hash 32
                  (AsBytes (Externals := Sample.small_env)
                           (with_Signature Sample.exact_spend "")))
               (Sample.hex_decode (Signature Sample.exact_spend)) = true).
Proof.
  split; [reflexivity |].
  apply (VerifyTx_accepts_iff (E := Sample.small_env)
           Sample.funded_chain Sample.exact_spend 100).
  reflexivity.
Defined.

(** X23.  On a ledger of at most [525600 * 64 + 11] blocks a transaction
    whose nonce differs from the sender's transaction count gets false
    from [VerifyTx]. *)
Theorem VerifyTx_rejects_wrong_nonce_on_young_ledger {E : Externals}
        (chain : Blockchain) (tx : LuTx) :
  Z.of_nat (length (Blocks chain)) <= 525600 * 64 + 11 ->
  TxNonce tx <> Wallet.ScanChainForNonce chain (TxFrom tx) ->
  Wallet.VerifyTx chain tx = Ok false.
Proof. apply VerifyTx_rejects_wrong_nonce_before_64_halvings. Qed.

Lemma VerifyTx_rejects_wrong_nonce_on_young_ledger_witness :
  Z.of_nat (length (Blocks Sample.funded_chain)) <= 525600 * 64 + 11 /\
  TxNonce Sample.replayed_spend
  <> Wallet.ScanChainForNonce Sample.funded_chain (TxFrom Sample.replayed_spend) /\
  Wallet.VerifyTx (E := Sample.small_env) Sample.funded_chain Sample.replayed_spend
  = Ok false.
Proof.
  split; [vm_compute; congruence |].
  split; [vm_compute; congruence |].
  apply (VerifyTx_rejects_wrong_nonce_on_young_ledger (E := Sample.small_env)
           Sample.funded_chain Sample.replayed_spend).
  - vm_compute; congruence.
  - vm_compute; congruence.
Defined.

(** ** The miner, conversely *)

(** X24.  A block that [Start] returns without error is the candidate with
    the least nonce that solves it, the hash of the candidate's bytes
    followed by that nonce, and the clock reading of that iteration; the
    other fields are the candidate's. *)
Theorem Start_returns_only_first_solutions {E : Externals}
        (fuel : nat) (m : Miner.t) (b b' : Block) :
  0 <= PackedTarget b < 2 ^ 32 ->
  Miner.Start fuel m b = Some (Ok (b', None)) ->
  exists bytes n0,
    ParseBlockToBytes b = Some bytes /\
    0 <= n0 < 2 ^ 32 /\ (Z.to_nat n0 < fuel)%nat /\
    Miner.solves bytes (PackedTarget b) n0 /\
    (forall j, 0 <= j < n0 -> ~ Miner.solves bytes (PackedTarget b) j) /\
    b' = Miner.solved b bytes (Z.to_nat n0) n0.
Proof. apply Start_success_is_first_solution. Qed.

Lemma Start_returns_only_first_solutions_witness :
  0 <= PackedTarget Sample.candidate < 2 ^ 32 /\
  Miner.Start (E := Sample.small_env) 10 Sample.idle_miner Sample.candidate
  = Some (Ok (Miner.solved (E := Sample.small_env) Sample.candidate [] 3 3, None)) /\
  exists bytes n0,
    ParseBlockToBytes (Externals := Sample.small_env) Sample.candidate = Some bytes /\
    0 <= n0 < 2 ^ 32 /\ (Z.to_nat n0 < 10)%nat /\
    Miner.solves (E := Sample.small_env) bytes (PackedTarget Sample.candidate) n0 /\
    (forall j, 0 <= j < n0 ->
       ~ Miner.solves (E := Sample.small_env) bytes (PackedTarget Sample.candidate) j) /\
    Miner.solved (E := Sample.small_env) Sample.candidate [] 3 3
    = Miner.solved (E := Sample.small_env) Sample.candidate bytes (Z.to_nat n0) n0.
Proof.
  split; [vm_compute; intuition congruence |].
  split; [vm_compute; reflexivity |].
  apply (Start_returns_only_first_solutions (E := Sample.small_env) 10
           Sample.idle_miner Sample.candidate
           (Miner.solved (E := Sample.small_env) Sample.candidate [] 3 3)).
  - vm_compute; intuition congruence.
  - vm_compute; reflexivity.
Defined.

(** X25.  Whatever the candidate and however long it runs, [Start] does
    not return the error for an exhausted search space. *)
Theorem Start_never_reports_exhaustion {E : Externals}
        (fuel : nat) (m : Miner.t) (b b' : Block) :
  Miner.Start fuel m b <> Some (Ok (b', Some Miner.exhausted_error)).
Proof. apply Start_never_exhausts. Qed.

(** ** Transaction weight *)

(** X26.  [WeightPLuX] adds 20 to the weight before it looks at the miner:
    with a miner it leaves the weight raised by 20 plus the miner's length
    and no error, without one it returns the error and still leaves the
    weight raised by 20 (all modulo [2^32]). *)
Theorem WeightPLuX_adds_before_checking (weight : Z) (luckyMiner : option (list byte)) :
  Transactions.WeightPLuX weight luckyMiner
  = match luckyMiner with
    | Some miner => (u32 (weight + 20 + Z.of_nat (length miner)), None)
    | None => (u32 (weight + 20), Some Transactions.no_miner_error)
    end.
Proof.
  unfold Transactions.WeightPLuX, u32.
  rewrite Zplus_mod_idemp_l.
  replace (weight + 8 * 2 + 4) with (weight + 20) by ring.
  destruct luckyMiner as [miner |]; [| reflexivity].
  rewrite Zplus_mod_idemp_l, Zplus_mod_idemp_r. reflexivity.
Qed.
